(** * AI News Reporter front end (main.py): prompt loader and chat session

    A shallow embedding of [main.py].  Python [str] values are sequences of
    Unicode code points; the Streamlit script is a program in a small monad
    that threads [st.session_state], records every framework call and user
    visible element it draws, and can stop on a Python exception or on
    [st.rerun()].

    Not recorded, since they neither touch the session nor show text of
    their own: [load_dotenv], [st.set_page_config], [st.divider] and the
    transient [st.spinner].  The exceptions of the model are those of class
    [Exception], which is what the two [except] clauses of the script
    catch. *)

From Stdlib Require Import List NArith Bool Ascii String Arith Lia.
Import ListNotations.

(** ** Python strings *)

Module PyStr.

(** A [str]: its code points in order. *)
Definition text : Type := list N.

(** An ASCII literal of the source, as code points. *)
Definition py (s : string) : text :=
  map N_of_ascii (list_ascii_of_string s).

Definition LF : N := 10%N.
Definition CR : N := 13%N.
Definition HASH : N := 35%N.

(** [bool(s)] of a string: non-empty. *)
Definition truthy (s : text) : bool :=
  match s with [] => false | _ :: _ => true end.

Fixpoint text_eqb (a b : text) : bool :=
  match a, b with
  | [], [] => true
  | x :: a', y :: b' => N.eqb x y && text_eqb a' b'
  | _, _ => false
  end.

(** [str.isspace] on one code point (CPython's [_PyUnicode_IsWhitespace]). *)
Definition isspace (c : N) : bool :=
  ((9 <=? c) && (c <=? 13) || (28 <=? c) && (c <=? 32)
   || (c =? 133) || (c =? 160) || (c =? 5760)
   || (8192 <=? c) && (c <=? 8202)
   || (c =? 8232) || (c =? 8233) || (c =? 8239) || (c =? 8287)
   || (c =? 12288))%N.

(** Line boundaries of [str.splitlines] (CPython's [_PyUnicode_IsLinebreak]). *)
Definition islinebreak (c : N) : bool :=
  ((10 <=? c) && (c <=? 13) || (28 <=? c) && (c <=? 30)
   || (c =? 133) || (c =? 8232) || (c =? 8233))%N.

Fixpoint lstrip (s : text) : text :=
  match s with
  | [] => []
  | c :: s' => if isspace c then lstrip s' else s
  end.

Definition rstrip (s : text) : text := rev (lstrip (rev s)).

(** [s.strip()] *)
Definition strip (s : text) : text := rstrip (lstrip s).

(** [s.startswith(p)] *)
Fixpoint startswith (s p : text) {struct p} : bool :=
  match p, s with
  | [], _ => true
  | x :: p', y :: s' => N.eqb x y && startswith s' p'
  | _ :: _, [] => false
  end.

(** The scanning loop of [s.splitlines()]: [cur] holds the code points of
    the line being read, last one first.  A carriage return directly
    followed by a line feed is one boundary.  The end of the string closes
    a line only if that line has at least one code point. *)
Fixpoint splitlines_from (cur : text) (s : text) : list text :=
  match s with
  | [] => match cur with [] => [] | _ :: _ => [rev cur] end
  | c :: rest =>
      if islinebreak c then
        rev cur ::
          match rest with
          | d :: rest' =>
              if N.eqb c CR && N.eqb d LF
              then splitlines_from [] rest'
              else splitlines_from [] rest
          | [] => splitlines_from [] rest
          end
      else splitlines_from (c :: cur) rest
  end.

Definition splitlines (s : text) : list text := splitlines_from [] s.

(** [s[:n]] for [n >= 0]. *)
Definition slice_to (n : nat) (s : text) : text := firstn n s.

End PyStr.
Import PyStr.

(** ** Prompt loader (lines 15-34)

    A file is given by what [Path.exists] and [Path.read_text] report:
    [None] when the path does not exist, [Some c] when it does and decodes
    to the text [c]. *)

Definition File : Type := option text.

Definition load_system_prompt (system_prompt_txt : File) : text :=
  match system_prompt_txt with
  | Some c => c
  | None => py "You are a helpful AI assistant."
  end.

Definition load_example_prompts (example_prompts_txt : File) : list text :=
  match example_prompts_txt with
  | Some c =>
      let lines := map strip (splitlines c) in
      filter (fun ln => truthy ln && negb (startswith ln (py "#"))) lines
  | None =>
      [ py "Tell me about a breaking news story happening in Times Square.";
        py "What's the latest development in NYC's tech scene?";
        py "Tell me about any upcoming events at Madison Square Garden" ]
  end.

(** ** Session state, external collaborators, and what a run leaves behind *)

Inductive Role : Type := user | assistant.

(** One entry of [st.session_state.messages]. *)
Record Message : Type := { role : Role; content : text }.

Record OpenAIChat : Type := { id : text; api_key : text }.

Inductive Tool : Type := DuckDuckGoTools (backend : text).

(** The object built by [Agent(model=..., instructions=..., tools=...,
    markdown=...)]: the arguments it was constructed with. *)
Record Agent : Type := {
  model : OpenAIChat;
  instructions : text;
  tools : list Tool;
  markdown : bool }.

(** [st.session_state].  A slot is [None] while its key is not in the
    session; the [agent] slot, once present, holds [None] or an agent. *)
Record SessionState : Type := {
  messages : option (list Message);
  agent : option (option Agent);
  example_prompt : option text }.

(** What one execution of the script reads from outside: the environment,
    the widgets, the two files, and the behaviour of the agent framework. *)
Record World : Type := {
  OPENAI_API_KEY : option text;
  text_input : text;
  system_prompt_txt : File;
  example_prompts_txt : File;
  (** [st.button], by widget key: pressed in the event that caused this run *)
  button : text -> bool;
  (** [st.chat_input]: the submitted text, if any *)
  chat_input : option text;
  (** [Agent(...)]: [None] when it returns, [Some e] when it raises an
      [Exception] with [str(e) = e] *)
  Agent_init : Agent -> option text;
  (** [agent.run(prompt, stream=False)]: [inl c] is a response with
      [response.content = c], [inr e] an [Exception] with [str(e) = e] *)
  Agent_run : Agent -> text -> text + text }.

Inductive Element : Type :=
| st_title (body : text)
| st_subheader (body : text)
| st_success (body : text)
| st_warning (body : text)
| st_error (body : text)
| st_markdown (body : text)
| st_button (label key : text).

Inductive Place : Type :=
| in_sidebar
| in_main
| in_chat_message (name : Role).

(** The observable steps of a run: elements drawn on the page and calls
    into the agent framework. *)
Inductive Event : Type :=
| Draw (p : Place) (e : Element)
| Construct (a : Agent)
| Run (a : Agent) (prompt : text).

(** How a block of the script ends: normally, by an [Exception] that is
    still propagating, or by [st.rerun()], which stops the script and is
    not an [Exception]. *)
Inductive Outcome (A : Type) : Type :=
| Done (a : A)
| Raised (e : text)
| Rerun.
Arguments Done {A} a.
Arguments Raised {A} e.
Arguments Rerun {A}.

(** ** The script monad *)

Definition M (A : Type) : Type :=
  SessionState -> Outcome A * SessionState * list Event.

Definition ret {A} (a : A) : M A := fun s => (Done a, s, []).

Definition bind {A B} (m : M A) (k : A -> M B) : M B :=
  fun s =>
    match m s with
    | (Done a, s1, l1) =>
        match k a s1 with (o, s2, l2) => (o, s2, l1 ++ l2) end
    | (Raised e, s1, l1) => (Raised e, s1, l1)
    | (Rerun, s1, l1) => (Rerun, s1, l1)
    end.

Declare Scope script_scope.
Delimit Scope script_scope with script.
Bind Scope script_scope with M.
Notation "x <- m ;; k" := (bind m (fun x => k))
  (at level 61, m at next level, right associativity) : script_scope.
Notation "m ;; k" := (bind m (fun _ => k))
  (at level 61, right associativity) : script_scope.
Open Scope script_scope.

Definition emit (ev : Event) : M unit := fun s => (Done tt, s, [ev]).
Definition draw (p : Place) (e : Element) : M unit := emit (Draw p e).
Definition raise {A} (e : text) : M A := fun s => (Raised e, s, []).
Definition st_rerun {A} : M A := fun s => (Rerun, s, []).

(** [try: body  except Exception as e: handler(str(e))] *)
Definition try_except {A} (body : M A) (handler : text -> M A) : M A :=
  fun s =>
    match body s with
    | (Raised e, s1, l1) =>
        match handler e s1 with (o, s2, l2) => (o, s2, l1 ++ l2) end
    | r => r
    end.

(** [for x in xs: body(x)] *)
Fixpoint for_each {A} (xs : list A) (body : A -> M unit) : M unit :=
  match xs with
  | [] => ret tt
  | x :: xs' => body x ;; for_each xs' body
  end.

Definition when (b : bool) (m : M unit) : M unit := if b then m else ret tt.

(** Attribute access on [st.session_state]. *)
Definition AttributeError (name : string) : text :=
  py "st.session_state has no attribute " ++ py name.

Definition has_messages : M bool :=
  fun s => (Done (match messages s with Some _ => true | None => false end), s, []).
Definition has_agent : M bool :=
  fun s => (Done (match agent s with Some _ => true | None => false end), s, []).
Definition has_example_prompt : M bool :=
  fun s => (Done (match example_prompt s with Some _ => true | None => false end), s, []).

Definition get_messages : M (list Message) :=
  fun s => match messages s with
           | Some ms => (Done ms, s, [])
           | None => (Raised (AttributeError "messages"), s, [])
           end.
Definition get_agent : M (option Agent) :=
  fun s => match agent s with
           | Some a => (Done a, s, [])
           | None => (Raised (AttributeError "agent"), s, [])
           end.
Definition get_example_prompt : M text :=
  fun s => match example_prompt s with
           | Some p => (Done p, s, [])
           | None => (Raised (AttributeError "example_prompt"), s, [])
           end.

Definition set_messages (ms : list Message) : M unit :=
  fun s => (Done tt,
            {| messages := Some ms; agent := agent s;
               example_prompt := example_prompt s |}, []).
Definition set_agent (a : option Agent) : M unit :=
  fun s => (Done tt,
            {| messages := messages s; agent := Some a;
               example_prompt := example_prompt s |}, []).
Definition set_example_prompt (p : text) : M unit :=
  fun s => (Done tt,
            {| messages := messages s; agent := agent s;
               example_prompt := Some p |}, []).
Definition del_example_prompt : M unit :=
  fun s => match example_prompt s with
           | Some _ =>
               (Done tt,
                {| messages := messages s; agent := agent s;
                   example_prompt := None |}, [])
           | None => (Raised (AttributeError "example_prompt"), s, [])
           end.

(** [st.session_state.messages.append(m)] *)
Definition messages_append (m : Message) : M unit :=
  ms <- get_messages ;; set_messages (ms ++ [m]).

(** Calls into the agent framework. *)
Definition new_Agent (w : World) (a : Agent) : M Agent :=
  emit (Construct a) ;;
  match Agent_init w a with
  | None => ret a
  | Some e => raise e
  end.

Definition agent_run (w : World) (a : Agent) (prompt : text) : M text :=
  emit (Run a prompt) ;;
  match Agent_run w a prompt with
  | inl c => ret c
  | inr e => raise e
  end.

Definition os_getenv (w : World) (default : text) : text :=
  match OPENAI_API_KEY w with Some v => v | None => default end.

(** ** The script, block by block *)

(** Lines 42-46. *)
Definition init_session_state : M unit :=
  present <- has_messages ;;
  when (negb present) (set_messages []) ;;
  present <- has_agent ;;
  when (negb present) (set_agent None).

(** Line 69: [agent is None or agent.model.api_key != api_key]. *)
Definition needs_agent (held : option Agent) (key : text) : bool :=
  match held with
  | None => true
  | Some a => negb (text_eqb (api_key (model a)) key)
  end.

Definition warning_sign : text := [0x26A0; 0xFE0F]%N.
Definition check_mark : text := [0x2705]%N.
Definition cross_mark : text := [0x274C]%N.

(** Lines 52-65: the key of this run. *)
Definition read_api_key (w : World) : M text :=
  let env_api_key := os_getenv w [] in
  if truthy env_api_key then
    draw in_sidebar
      (st_success (check_mark ++ py " API key loaded from environment")) ;;
    ret env_api_key
  else ret (text_input w).

(** Lines 74-79: the arguments of the constructor call. *)
Definition Agent_call (key system_prompt : text) : Agent :=
  {| model := {| id := py "gpt-4o"; api_key := key |};
     instructions := system_prompt;
     tools := [DuckDuckGoTools (py "html")];
     markdown := true |}.

(** Lines 67-84. *)
Definition initialize_agent (w : World) (key : text) : M unit :=
  if truthy key then
    held <- get_agent ;;
    when (needs_agent held key)
      (try_except
         (let system_prompt := load_system_prompt (system_prompt_txt w) in
          a <- new_Agent w (Agent_call key system_prompt) ;;
          set_agent (Some a) ;;
          draw in_sidebar
            (st_success (check_mark ++ py " Agent initialized successfully!")))
         (fun e =>
            draw in_sidebar (st_error (py "Error initializing agent: " ++ e))))
  else
    draw in_sidebar
      (st_warning
         (warning_sign ++ py " Please enter your OpenAI API key to start")).

(** Lines 88-95.  [st.button] is taken to accept its key and to report
    whether it was pressed; [buttons_accepted] below says when Streamlit
    does accept the keys of a run. *)
Definition example_button (w : World) (prompt : text) : M unit :=
  let key := py "example_" ++ slice_to 20 prompt in
  draw in_sidebar (st_button prompt key) ;;
  when (button w key) (set_example_prompt prompt ;; st_rerun).

Definition example_buttons (w : World) : M unit :=
  draw in_sidebar (st_subheader ([0x1F4A1]%N ++ py " Example Prompts")) ;;
  let example_prompts := load_example_prompts (example_prompts_txt w) in
  for_each example_prompts (example_button w).

(** Lines 49-95. *)
Definition sidebar (w : World) : M unit :=
  draw in_sidebar (st_title ([0x2699; 0xFE0F]%N ++ py " Configuration")) ;;
  key <- read_api_key w ;;
  initialize_agent w key ;;
  example_buttons w.

(** Lines 97-104. *)
Definition display_chat_history : M unit :=
  draw in_main (st_title ([0x1F5FD]%N ++ py " AI News Reporter")) ;;
  draw in_main
    (st_markdown
       (py "Your AI News Buddy that can search the web for real-time news with a distinctive NYC personality!")) ;;
  ms <- get_messages ;;
  for_each ms
    (fun message =>
       draw (in_chat_message (role message)) (st_markdown (content message))).

(** Lines 106-113.  The slot is the script's own: it holds what line 94
    stored, which is so as long as no widget is keyed with the slot's name
    (see [buttons_accepted]). *)
Definition handle_example_prompt : M unit :=
  pending <- has_example_prompt ;;
  when pending
    (prompt <- get_example_prompt ;;
     del_example_prompt ;;
     messages_append {| role := user; content := prompt |} ;;
     draw (in_chat_message user) (st_markdown prompt)).

Definition no_key_warning : text :=
  warning_sign
  ++ py " Please enter your OpenAI API key in the sidebar to start chatting.".

Definition error_prefix : text := cross_mark ++ py " Error: ".

(** Lines 122-141: the response to a submitted prompt. *)
Definition generate_response (w : World) (prompt : text) : M unit :=
  held <- get_agent ;;
  match held with
  | None => draw (in_chat_message assistant) (st_error no_key_warning)
  | Some a =>
      try_except
        (response <- agent_run w a prompt ;;
         draw (in_chat_message assistant) (st_markdown response) ;;
         messages_append {| role := assistant; content := response |})
        (fun e =>
           let error_msg := error_prefix ++ e in
           draw (in_chat_message assistant) (st_error error_msg) ;;
           messages_append {| role := assistant; content := error_msg |})
  end.

(** Lines 115-141. *)
Definition handle_chat_input (w : World) : M unit :=
  match chat_input w with
  | Some prompt =>
      when (truthy prompt)
        (messages_append {| role := user; content := prompt |} ;;
         draw (in_chat_message user) (st_markdown prompt) ;;
         generate_response w prompt)
  | None => ret tt
  end.

(** One execution of [main.py]. *)
Definition script (w : World) : M unit :=
  init_session_state ;;
  sidebar w ;;
  display_chat_history ;;
  handle_example_prompt ;;
  handle_chat_input w.

(** ** Runs and sessions *)

Definition outcome_of {A} (r : Outcome A * SessionState * list Event) : Outcome A :=
  fst (fst r).
Definition state_of {A} (r : Outcome A * SessionState * list Event) : SessionState :=
  snd (fst r).
Definition events_of {A} (r : Outcome A * SessionState * list Event) : list Event :=
  snd r.

(** A session before its first run. *)
Definition fresh : SessionState :=
  {| messages := None; agent := None; example_prompt := None |}.

(** The chat history and the agent handle of a session. *)
Definition history (s : SessionState) : list Message :=
  match messages s with Some ms => ms | None => [] end.
Definition handle (s : SessionState) : option Agent :=
  match agent s with Some held => held | None => None end.

(** The key the sidebar works with in a run. *)
Definition supplied_key (w : World) : text :=
  if truthy (os_getenv w []) then os_getenv w [] else text_input w.

(** Session state is kept from one run to the next, however the run ended. *)
Fixpoint session (ws : list World) (s : SessionState) : SessionState :=
  match ws with
  | [] => s
  | w :: ws' => session ws' (state_of (script w s))
  end.

(** Everything observable over consecutive runs. *)
Fixpoint session_events (ws : list World) (s : SessionState) : list Event :=
  match ws with
  | [] => []
  | w :: ws' =>
      events_of (script w s) ++ session_events ws' (state_of (script w s))
  end.

Definition is_construct (ev : Event) : bool :=
  match ev with Construct _ => true | _ => false end.
Definition is_run (ev : Event) : bool :=
  match ev with Run _ _ => true | _ => false end.

(** Calls of the [Agent] constructor, and of [agent.run], among events. *)
Definition constructions (evs : list Event) : list Event := filter is_construct evs.
Definition invocations (evs : list Event) : list Event := filter is_run evs.

(** The agent a run would construct for its key. *)
Definition agent_for (w : World) : Agent :=
  Agent_call (supplied_key w) (load_system_prompt (system_prompt_txt w)).

(** The same run without a submission in the chat input. *)
Definition idle (w : World) : World :=
  {| OPENAI_API_KEY := OPENAI_API_KEY w;
     text_input := text_input w;
     system_prompt_txt := system_prompt_txt w;
     example_prompts_txt := example_prompts_txt w;
     button := button w;
     chat_input := None;
     Agent_init := Agent_init w;
     Agent_run := Agent_run w |}.

(** The user entry of the example prompt waiting in the session, if any. *)
Definition pending (s : SessionState) : list Message :=
  match example_prompt s with
  | Some p => [{| role := user; content := p |}]
  | None => []
  end.

(** Everything before the chat input (lines 42-113). *)
Definition prelude (w : World) : M unit :=
  init_session_state ;;
  sidebar w ;;
  display_chat_history ;;
  handle_example_prompt.

(** Lines 42-46 leave every slot but [example_prompt] present. *)
Definition normal (s : SessionState) : SessionState :=
  {| messages := Some (history s); agent := Some (handle s);
     example_prompt := example_prompt s |}.

(** Lines 67 and 69 together: the run calls the constructor. *)
Definition attempts (w : World) (s : SessionState) : bool :=
  truthy (supplied_key w) && needs_agent (handle s) (supplied_key w).

(** The text [st.chat_input] hands to the script in a run: line 116 has to
    be reached, and an empty text does not pass the test there. *)
Definition submitted (w : World) (s : SessionState) : option text :=
  match outcome_of (prelude w s), chat_input w with
  | Done _, Some p => if truthy p then Some p else None
  | _, _ => None
  end.

Definition user_entry (p : text) : Message := {| role := user; content := p |}.
Definition assistant_entry (c : text) : Message :=
  {| role := assistant; content := c |}.

(** Elements the claims speak about. *)
Definition init_error (e : text) : Event :=
  Draw in_sidebar (st_error (py "Error initializing agent: " ++ e)).
Definition key_reminder : Event :=
  Draw in_sidebar
    (st_warning (warning_sign ++ py " Please enter your OpenAI API key to start")).
Definition user_bubble (p : text) : Event :=
  Draw (in_chat_message user) (st_markdown p).
Definition no_key_bubble : Event :=
  Draw (in_chat_message assistant) (st_error no_key_warning).

(** Events that are neither a constructor call nor an agent call. *)
Definition quiet (l : list Event) : Prop :=
  constructions l = [] /\ invocations l = [].

Definition notbreak (c : N) : bool := negb (islinebreak c).
Definition blank (ln : text) : bool := forallb isspace ln.

(** Bubbles drawn for the assistant. *)
Definition is_reply (ev : Event) : bool :=
  match ev with Draw (in_chat_message assistant) _ => true | _ => false end.
Definition replies (evs : list Event) : list Event := filter is_reply evs.

(** ** Concrete runs

    A run in which nothing happens: no key anywhere, no files, no button
    pressed, nothing typed; the constructor would succeed and the agent
    would answer. *)
Definition nothing : World :=
  {| OPENAI_API_KEY := None;
     text_input := [];
     system_prompt_txt := None;
     example_prompts_txt := None;
     button := fun _ => false;
     chat_input := None;
     Agent_init := fun _ => None;
     Agent_run := fun _ _ => inl (py "Here is the news.") |}.

Definition with_key (k : text) (w : World) : World :=
  {| OPENAI_API_KEY := OPENAI_API_KEY w; text_input := k;
     system_prompt_txt := system_prompt_txt w;
     example_prompts_txt := example_prompts_txt w;
     button := button w; chat_input := chat_input w;
     Agent_init := Agent_init w; Agent_run := Agent_run w |}.

Definition typing (p : text) (w : World) : World :=
  {| OPENAI_API_KEY := OPENAI_API_KEY w; text_input := text_input w;
     system_prompt_txt := system_prompt_txt w;
     example_prompts_txt := example_prompts_txt w;
     button := button w; chat_input := Some p;
     Agent_init := Agent_init w; Agent_run := Agent_run w |}.

Definition pressing (key : text) (w : World) : World :=
  {| OPENAI_API_KEY := OPENAI_API_KEY w; text_input := text_input w;
     system_prompt_txt := system_prompt_txt w;
     example_prompts_txt := example_prompts_txt w;
     button := fun k => text_eqb k key; chat_input := chat_input w;
     Agent_init := Agent_init w; Agent_run := Agent_run w |}.

Definition construction_raising (e : text) (w : World) : World :=
  {| OPENAI_API_KEY := OPENAI_API_KEY w; text_input := text_input w;
     system_prompt_txt := system_prompt_txt w;
     example_prompts_txt := example_prompts_txt w;
     button := button w; chat_input := chat_input w;
     Agent_init := fun _ => Some e; Agent_run := Agent_run w |}.

Definition run_raising (e : text) (w : World) : World :=
  {| OPENAI_API_KEY := OPENAI_API_KEY w; text_input := text_input w;
     system_prompt_txt := system_prompt_txt w;
     example_prompts_txt := example_prompts_txt w;
     button := button w; chat_input := chat_input w;
     Agent_init := Agent_init w; Agent_run := fun _ _ => inr e |}.

Definition sk : text := py "sk-test".
Definition times_square : text :=
  py "Tell me about a breaking news story happening in Times Square.".
Definition the_agent : Agent :=
  Agent_call sk (py "You are a helpful AI assistant.").

(** ** Notions used by the further properties *)

(** Line 93: the widget key of an example button. *)
Definition example_key (prompt : text) : text :=
  py "example_" ++ slice_to 20 prompt.

(** The example whose button a run acts on: the first one, in the order of
    the loop at line 92, whose button reports a press. *)
Definition pressed_example (w : World) : option text :=
  find (fun p => button w (example_key p))
    (load_example_prompts (example_prompts_txt w)).

(** The bubble drawn for a stored message (lines 103-104). *)
Definition bubble (m : Message) : Event :=
  Draw (in_chat_message (role m)) (st_markdown (content m)).

(** Lines 98-99. *)
Definition main_banner : list Event :=
  [Draw in_main (st_title ([0x1F5FD]%N ++ py " AI News Reporter"));
   Draw in_main
     (st_markdown
        (py "Your AI News Buddy that can search the web for real-time news with a distinctive NYC personality!"))].

(** Events of the sidebar block: elements drawn there and the constructor
    call. *)
Definition of_sidebar (ev : Event) : bool :=
  match ev with
  | Draw in_sidebar _ => true
  | Construct _ => true
  | _ => false
  end.

(** A prompts file with the given lines, each ended by a line feed. *)
Definition unlines (ps : list text) : text :=
  List.concat (map (fun p => p ++ [LF]) ps).

(** A prompt the loader returns as it is: one line, trimmed, not empty and
    not a comment. *)
Definition clean_prompt (p : text) : bool :=
  forallb notbreak p && text_eqb (strip p) p && truthy p
  && negb (startswith p (py "#")).

Definition is_assistant (m : Message) : bool :=
  match role m with assistant => true | user => false end.

(** Every assistant entry comes directly after a user entry;
    [after_user] tells whether the entry before the list is a user entry. *)
Fixpoint replies_follow_user (after_user : bool) (ms : list Message) : bool :=
  match ms with
  | [] => true
  | m :: ms' =>
      match role m with
      | user => replies_follow_user true ms'
      | assistant => after_user && replies_follow_user false ms'
      end
  end.

Definition with_system_prompt (f : File) (w : World) : World :=
  {| OPENAI_API_KEY := OPENAI_API_KEY w; text_input := text_input w;
     system_prompt_txt := f;
     example_prompts_txt := example_prompts_txt w;
     button := button w; chat_input := chat_input w;
     Agent_init := Agent_init w; Agent_run := Agent_run w |}.

Definition with_env_key (k : text) (w : World) : World :=
  {| OPENAI_API_KEY := Some k; text_input := text_input w;
     system_prompt_txt := system_prompt_txt w;
     example_prompts_txt := example_prompts_txt w;
     button := button w; chat_input := chat_input w;
     Agent_init := Agent_init w; Agent_run := Agent_run w |}.

Definition with_examples (f : File) (w : World) : World :=
  {| OPENAI_API_KEY := OPENAI_API_KEY w; text_input := text_input w;
     system_prompt_txt := system_prompt_txt w;
     example_prompts_txt := f;
     button := button w; chat_input := chat_input w;
     Agent_init := Agent_init w; Agent_run := Agent_run w |}.

(** The handle a run holds once lines 67-84 are done. *)
Definition configured (w : World) (s : SessionState) : option Agent :=
  if attempts w s
  then match Agent_init w (agent_for w) with
       | None => Some (agent_for w)
       | Some _ => handle s
       end
  else handle s.

(** What lines 116-141 add to the history when they run with the handle
    [held]: the user entry of a submitted non-empty text, then the answer
    or the formatted error if there is an agent to ask. *)
Definition exchange (w : World) (held : option Agent) : list Message :=
  match chat_input w with
  | Some p =>
      if truthy p then
        user_entry p ::
          match held with
          | None => []
          | Some a =>
              match Agent_run w a p with
              | inl c => [assistant_entry c]
              | inr e => [assistant_entry (error_prefix ++ e)]
              end
          end
      else []
  | None => []
  end.

(** ** What Streamlit accepts, and sessions as the page produces them *)

Fixpoint distinct (ks : list text) : bool :=
  match ks with
  | [] => true
  | k :: ks' => negb (existsb (text_eqb k) ks') && distinct ks'
  end.

(** The name of the slot written at line 94. *)
Definition slot_name : text := py "example_prompt".

(** Streamlit accepts the example buttons of a run: no widget key is given
    twice at line 93, and no widget key is the name of the session slot of
    line 94 (widget keys and slots share [st.session_state]).  Outside
    this domain the page does not run as the blocks above say: the second
    [st.button] with one key raises, a button keyed [example_prompt] makes
    the test of line 107 true in every run, and the assignment of line 94
    to such a key raises. *)
Definition buttons_accepted (w : World) : bool :=
  let keys := map example_key (load_example_prompts (example_prompts_txt w)) in
  distinct keys && negb (existsb (text_eqb slot_name) keys).

(** The run that [st.rerun()] starts (line 95) comes with no submission in
    the chat input: the slot of line 94 is written only just before it. *)
Fixpoint reruns_are_idle (ws : list World) (s : SessionState) : bool :=
  match ws with
  | [] => true
  | w :: ws' =>
      match outcome_of (script w s), ws' with
      | Rerun, w2 :: _ =>
          match chat_input w2 with None => true | Some _ => false end
      | _, _ => true
      end
      && reruns_are_idle ws' (state_of (script w s))
  end.

(** * Facts about the string operations *)

Lemma text_eqb_eq a : forall b, text_eqb a b = true <-> a = b.
Proof.
  induction a as [|x a IH]; intros [|y b]; simpl; split; intros H;
    try reflexivity; try discriminate.
  - apply andb_true_iff in H as [Hx Hr]. apply N.eqb_eq in Hx.
    apply IH in Hr. now subst.
  - inversion H; subst. rewrite N.eqb_refl. simpl. now apply IH.
Qed.

Lemma lstrip_decompose s :
  exists a, s = a ++ lstrip s /\ forallb isspace a = true.
Proof.
  induction s as [|c s (a & E & Ha)]; simpl.
  - now exists [].
  - destruct (isspace c) eqn:Hc.
    + exists (c :: a). simpl. rewrite Hc, Ha. now rewrite <- E.
    + now exists [].
Qed.

Lemma lstrip_head s c : hd_error (lstrip s) = Some c -> isspace c = false.
Proof.
  induction s as [|x s IH]; simpl; [discriminate|].
  destruct (isspace x) eqn:Hx; [exact IH|].
  simpl. intros [= <-]. exact Hx.
Qed.

Lemma lstrip_blank s : forallb isspace s = true -> lstrip s = [].
Proof.
  induction s as [|c s IH]; simpl; [reflexivity|].
  intros H. apply andb_true_iff in H as [Hc Hs]. rewrite Hc. auto.
Qed.

Lemma lstrip_snoc s c : isspace c = false -> lstrip (s ++ [c]) = lstrip s ++ [c].
Proof.
  intros Hc. induction s as [|x s IH]; simpl.
  - now rewrite Hc.
  - destruct (isspace x); [exact IH | reflexivity].
Qed.

Lemma rstrip_cons c s : isspace c = false -> rstrip (c :: s) = c :: rstrip s.
Proof.
  intros Hc. unfold rstrip. simpl. rewrite lstrip_snoc by exact Hc.
  now rewrite rev_app_distr.
Qed.

Lemma rstrip_decompose s :
  exists b, s = rstrip s ++ b /\ forallb isspace b = true.
Proof.
  unfold rstrip. destruct (lstrip_decompose (rev s)) as (a & E & Ha).
  exists (rev a). split.
  - rewrite <- rev_app_distr, <- E. now rewrite rev_involutive.
  - rewrite forallb_forall in *. intros x Hx. apply Ha. now apply in_rev.
Qed.

Lemma strip_decompose s :
  exists a b, s = a ++ strip s ++ b
              /\ forallb isspace a = true /\ forallb isspace b = true.
Proof.
  unfold strip. destruct (lstrip_decompose s) as (a & Ea & Ha).
  destruct (rstrip_decompose (lstrip s)) as (b & Eb & Hb).
  exists a, b. repeat split; trivial. now rewrite <- Eb.
Qed.

Lemma strip_first s c : hd_error (strip s) = Some c -> isspace c = false.
Proof.
  unfold strip. intros H.
  destruct (rstrip_decompose (lstrip s)) as (b & Eb & _).
  apply (lstrip_head s). rewrite Eb.
  destruct (rstrip (lstrip s)); [discriminate | exact H].
Qed.

Lemma strip_last s c : hd_error (rev (strip s)) = Some c -> isspace c = false.
Proof.
  unfold strip, rstrip. rewrite rev_involutive. apply lstrip_head.
Qed.

Lemma strip_blank s : forallb isspace s = true -> strip s = [].
Proof. intros H. unfold strip. now rewrite (lstrip_blank s H). Qed.

Lemma py_hash : py "#" = [HASH].
Proof. reflexivity. Qed.

Lemma startswith_hash s :
  startswith s (py "#") = true <-> exists t, s = HASH :: t.
Proof.
  rewrite py_hash. destruct s as [|c s].
  - split; [discriminate | intros [t [=]]].
  - change (startswith (c :: s) [HASH]) with (N.eqb HASH c && startswith s []).
    change (startswith s []) with true.
    rewrite andb_true_r, N.eqb_eq. split.
    + intros <-. now exists s.
    + now intros [t [= <- _]].
Qed.

Lemma strip_keeps_hash s :
  startswith s (py "#") = true -> startswith (strip s) (py "#") = true.
Proof.
  rewrite !startswith_hash. intros [t ->]. exists (rstrip t).
  unfold strip. change (lstrip (HASH :: t)) with (HASH :: t).
  now apply rstrip_cons.
Qed.

(** Induction over strings that may step over two code points at once, as
    the scanning loop does at a carriage return and line feed. *)
Lemma text_ind2 (P : text -> Prop) :
  P [] ->
  (forall c rest, P rest -> (forall d rest', rest = d :: rest' -> P rest') ->
                  P (c :: rest)) ->
  forall s, P s.
Proof.
  intros H0 Hstep s.
  assert (H : P s /\ (forall d s', s = d :: s' -> P s')).
  { induction s as [|c s [IH1 IH2]].
    - split; [exact H0 | discriminate].
    - split.
      + apply Hstep; assumption.
      + intros d s' [= _ <-]. exact IH1. }
  exact (proj1 H).
Qed.

Lemma splitlines_from_concat s : forall cur,
  List.concat (splitlines_from cur s) = rev cur ++ filter notbreak s.
Proof.
  induction s as [|c rest IH IH'] using text_ind2; intros cur; simpl.
  - destruct cur; simpl; [reflexivity|]. now rewrite !app_nil_r.
  - unfold notbreak at 1. destruct (islinebreak c) eqn:Hc; simpl.
    + f_equal. destruct rest as [|d rest'].
      * reflexivity.
      * destruct (N.eqb c CR && N.eqb d LF) eqn:Hcr.
        -- apply andb_true_iff in Hcr as [_ Hd]. apply N.eqb_eq in Hd.
           subst d. rewrite (IH' _ _ eq_refl []). reflexivity.
        -- apply (IH []).
    + rewrite IH. simpl. now rewrite <- app_assoc.
Qed.

Lemma splitlines_from_nobreak s : forall cur ln,
  forallb notbreak cur = true ->
  In ln (splitlines_from cur s) -> forallb notbreak ln = true.
Proof.
  assert (Hrev : forall cur, forallb notbreak cur = true ->
                             forallb notbreak (rev cur) = true).
  { intros cur H. rewrite forallb_forall in *. intros x Hx.
    apply H. now apply in_rev. }
  induction s as [|c rest IH IH'] using text_ind2; intros cur ln Hcur; simpl.
  - destruct cur as [|x cur']; simpl; [tauto|].
    intros [<- | []]. now apply (Hrev (x :: cur')).
  - destruct (islinebreak c) eqn:Hc.
    + intros [<- | Hin]; [now apply Hrev|].
      destruct rest as [|d rest']; [destruct Hin|].
      destruct (N.eqb c CR && N.eqb d LF).
      * now apply (IH' _ _ eq_refl [] ln).
      * now apply (IH [] ln).
    + apply IH. simpl. unfold notbreak at 1. now rewrite Hc.
Qed.

Lemma splitlines_concat c : List.concat (splitlines c) = filter notbreak c.
Proof. apply (splitlines_from_concat c []). Qed.

Lemma splitlines_nobreak c ln :
  In ln (splitlines c) -> forallb notbreak ln = true.
Proof. now apply splitlines_from_nobreak. Qed.

Lemma load_example_prompts_In c p :
  In p (load_example_prompts (Some c)) <->
  exists ln, In ln (splitlines c) /\ p = strip ln /\ p <> []
             /\ startswith p (py "#") = false.
Proof.
  unfold load_example_prompts. rewrite filter_In, in_map_iff. split.
  - intros [(ln & <- & Hin) Hk]. exists ln.
    apply andb_true_iff in Hk as [Ht Hs]. apply negb_true_iff in Hs.
    repeat split; trivial. destruct (strip ln); [discriminate | discriminate].
  - intros (ln & Hin & -> & Hne & Hs). split; [now exists ln|].
    rewrite Hs. destruct (strip ln); [contradiction | reflexivity].
Qed.

(** * The blocks of the script *)

Lemma bind_assoc_at A B C (m : M A) (f : A -> M B) (g : B -> M C) s :
  bind (bind m f) g s = bind m (fun a => bind (f a) g) s.
Proof.
  unfold bind. destruct (m s) as [[[a| e |] s1] l1]; trivial.
  destruct (f a s1) as [[[b| e |] s2] l2]; trivial.
  destruct (g b s2) as [[o s3] l3]. now rewrite app_assoc.
Qed.

Lemma bind_ext_at A B (m : M A) (f g : A -> M B) s :
  (forall a s1, f a s1 = g a s1) -> bind m f s = bind m g s.
Proof.
  intros H. unfold bind. destruct (m s) as [[[a| e |] s1] l1]; trivial.
  now rewrite H.
Qed.

Lemma constructions_app l1 l2 :
  constructions (l1 ++ l2) = constructions l1 ++ constructions l2.
Proof. apply filter_app. Qed.

Lemma invocations_app l1 l2 :
  invocations (l1 ++ l2) = invocations l1 ++ invocations l2.
Proof. apply filter_app. Qed.

Lemma init_session_state_spec s :
  init_session_state s = (Done tt, normal s, []).
Proof. destruct s as [[ms|] [[a|]|] ex]; reflexivity. Qed.

Lemma read_api_key_spec w s :
  exists l, read_api_key w s = (Done (supplied_key w), s, l) /\ quiet l.
Proof.
  unfold read_api_key, supplied_key.
  destruct (truthy (os_getenv w [])); eexists; split; try reflexivity;
    now split.
Qed.

Lemma initialize_agent_spec w key ms held ex :
  let s := {| messages := Some ms; agent := Some held; example_prompt := ex |} in
  let a := Agent_call key (load_system_prompt (system_prompt_txt w)) in
  initialize_agent w key s =
  if truthy key then
    if needs_agent held key then
      match Agent_init w a with
      | None =>
          (Done tt,
           {| messages := Some ms; agent := Some (Some a); example_prompt := ex |},
           [Construct a;
            Draw in_sidebar
              (st_success (check_mark ++ py " Agent initialized successfully!"))])
      | Some e => (Done tt, s, [Construct a; init_error e])
      end
    else (Done tt, s, [])
  else (Done tt, s, [key_reminder]).
Proof.
  intros s a. unfold initialize_agent. destruct (truthy key); [|reflexivity].
  unfold bind at 1. cbn [get_agent agent s].
  destruct (needs_agent held key); [|reflexivity].
  unfold when, try_except, bind, new_Agent, emit. fold a.
  destruct (Agent_init w a); reflexivity.
Qed.

Lemma example_button_spec w p s :
  example_button w p s =
  let key := py "example_" ++ slice_to 20 p in
  if button w key then
    (Rerun,
     {| messages := messages s; agent := agent s; example_prompt := Some p |},
     [Draw in_sidebar (st_button p key)])
  else (Done tt, s, [Draw in_sidebar (st_button p key)]).
Proof.
  unfold example_button. cbv zeta.
  destruct (button w (py "example_" ++ slice_to 20 p)); reflexivity.
Qed.

Lemma example_button_step w p ps s :
  for_each (p :: ps) (example_button w) s =
  let key := py "example_" ++ slice_to 20 p in
  if button w key then
    (Rerun,
     {| messages := messages s; agent := agent s; example_prompt := Some p |},
     [Draw in_sidebar (st_button p key)])
  else
    match for_each ps (example_button w) s with
    | (o, s2, l2) => (o, s2, Draw in_sidebar (st_button p key) :: l2)
    end.
Proof.
  cbn [for_each]. unfold bind. rewrite example_button_spec. cbv zeta.
  destruct (button w (py "example_" ++ slice_to 20 p)); reflexivity.
Qed.

Lemma example_button_loop w ps : forall s,
  (exists l, for_each ps (example_button w) s = (Done tt, s, l) /\ quiet l)
  \/ (exists l p,
        for_each ps (example_button w) s
        = (Rerun,
           {| messages := messages s; agent := agent s; example_prompt := Some p |},
           l)
        /\ quiet l /\ In p ps
        /\ button w (py "example_" ++ slice_to 20 p) = true).
Proof.
  induction ps as [|p ps IH]; intros s.
  - left. exists []. now split.
  - rewrite example_button_step. cbv zeta.
    destruct (button w (py "example_" ++ slice_to 20 p)) eqn:Hb.
    + right. eexists _, p. split; [reflexivity|]. repeat split; trivial.
      now left.
    + destruct (IH s) as [(l & E & Q) | (l & q & E & Q & Hin & Hq)];
        rewrite E.
      * left. eexists. split; [reflexivity|]. destruct Q as [Q1 Q2].
        split; cbn; assumption.
      * right. eexists _, q. split; [reflexivity|]. destruct Q as [Q1 Q2].
        repeat split; trivial; now right.
Qed.

Lemma display_loop ms : forall s,
  for_each ms
    (fun message =>
       draw (in_chat_message (role message)) (st_markdown (content message))) s
  = (Done tt, s,
     map (fun m => Draw (in_chat_message (role m)) (st_markdown (content m))) ms).
Proof.
  induction ms as [|m ms IH]; intros s; [reflexivity|].
  cbn [for_each]. unfold bind, draw at 1, emit. now rewrite IH.
Qed.

Lemma quiet_draws (A : Type) (f : A -> Place * Element) xs :
  quiet (map (fun x => Draw (fst (f x)) (snd (f x))) xs).
Proof. induction xs as [|x xs [IH1 IH2]]; split; trivial. Qed.

Lemma display_chat_history_spec s ms :
  messages s = Some ms ->
  exists l, display_chat_history s = (Done tt, s, l) /\ quiet l.
Proof.
  intros H. unfold display_chat_history, bind, draw, emit, get_messages.
  rewrite H, display_loop. eexists. split; [reflexivity|].
  pose proof (quiet_draws Message
    (fun m : Message => (in_chat_message (role m), st_markdown (content m))) ms)
    as [Q1 Q2].
  split; cbn; assumption.
Qed.

Lemma handle_example_prompt_spec ms held ex :
  let s := {| messages := Some ms; agent := held; example_prompt := ex |} in
  exists l,
    handle_example_prompt s
    = (Done tt,
       {| messages := Some (ms ++ pending s); agent := held;
          example_prompt := None |}, l)
    /\ quiet l.
Proof.
  destruct ex as [p|]; cbn.
  - eexists. split; [reflexivity|]. now split.
  - rewrite app_nil_r. eexists. split; [reflexivity|]. now split.
Qed.

Lemma example_buttons_spec w s :
  (exists l, example_buttons w s = (Done tt, s, l) /\ quiet l)
  \/ (exists l p,
        example_buttons w s
        = (Rerun,
           {| messages := messages s; agent := agent s; example_prompt := Some p |},
           l)
        /\ quiet l /\ In p (load_example_prompts (example_prompts_txt w))
        /\ button w (py "example_" ++ slice_to 20 p) = true).
Proof.
  unfold example_buttons. cbv zeta. unfold bind, draw, emit.
  destruct (example_button_loop w (load_example_prompts (example_prompts_txt w)) s)
    as [(l & E & Q) | (l & p & E & Q & Hin & Hb)]; rewrite E.
  - left. eexists. split; [reflexivity|]. destruct Q. split; cbn; assumption.
  - right. eexists _, p. split; [reflexivity|]. destruct Q.
    repeat split; trivial.
Qed.

(** What the sidebar does to an initialised session. *)
Lemma sidebar_spec w ms held ex :
  let s := {| messages := Some ms; agent := Some held; example_prompt := ex |} in
  exists o held' ex' l,
    sidebar w s
    = (o, {| messages := Some ms; agent := Some held'; example_prompt := ex' |}, l)
    /\ invocations l = []
    /\ constructions l
       = (if attempts w s then [Construct (agent_for w)] else [])
    /\ held' = (if attempts w s
                then match Agent_init w (agent_for w) with
                     | None => Some (agent_for w)
                     | Some _ => held
                     end
                else held)
    /\ (attempts w s = true ->
        forall e, Agent_init w (agent_for w) = Some e -> In (init_error e) l)
    /\ (supplied_key w = [] -> In key_reminder l)
    /\ (o = Done tt /\ ex' = ex
        \/ o = Rerun /\ exists p, ex' = Some p
             /\ In p (load_example_prompts (example_prompts_txt w))
             /\ button w (py "example_" ++ slice_to 20 p) = true).
Proof.
  intros s. unfold sidebar. unfold bind at 1. cbn [draw emit].
  unfold bind at 1. destruct (read_api_key_spec w s) as (lk & Ek & Qk1 & Qk2).
  rewrite Ek. unfold bind at 1. subst s. rewrite initialize_agent_spec.
  unfold attempts, agent_for. cbn [handle agent].
  set (key := supplied_key w) in *.
  set (a := Agent_call key (load_system_prompt (system_prompt_txt w))).
  assert (Hout : forall held1 li,
    exists o ex' l,
      (let (p, l2) :=
         (let (p, l2) :=
            example_buttons w
              {| messages := Some ms; agent := Some held1; example_prompt := ex |} in
          let (o, s2) := p in (o, s2, li ++ l2)) in
       let (o, s2) := p in (o, s2, lk ++ l2))
      = (o, {| messages := Some ms; agent := Some held1; example_prompt := ex' |},
         lk ++ li ++ l)
      /\ quiet l
      /\ (o = Done tt /\ ex' = ex
          \/ o = Rerun /\ exists p, ex' = Some p
               /\ In p (load_example_prompts (example_prompts_txt w))
               /\ button w (py "example_" ++ slice_to 20 p) = true)).
  { intros held1 li.
    destruct (example_buttons_spec w
      {| messages := Some ms; agent := Some held1; example_prompt := ex |})
      as [(l & E & Q) | (l & p & E & Q & Hin & Hb)]; rewrite E.
    - exists (Done tt), ex, l. repeat split; try apply Q. now left.
    - exists Rerun, (Some p), l. repeat split; try apply Q. right.
      split; trivial. now exists p. }
  set (T := Draw in_sidebar
               (st_title ([0x2699; 0xFE0F]%N ++ py " Configuration"))).
  assert (Hev : forall li l,
    quiet l ->
    invocations ([T] ++ lk ++ li ++ l) = invocations li
    /\ constructions ([T] ++ lk ++ li ++ l) = constructions li).
  { intros li l [Q1 Q2].
    rewrite !invocations_app, !constructions_app, Q1, Q2, Qk1, Qk2.
    now rewrite !app_nil_r. }
  assert (Hmid : forall (li l : list Event) ev,
            In ev li -> In ev ([T] ++ lk ++ li ++ l)).
  { intros li l ev H. apply in_or_app. right. apply in_or_app. right.
    apply in_or_app. now left. }
  destruct (truthy key) eqn:Hkey; cbn [andb].
  - assert (Hne : key = [] -> In key_reminder ([T] ++ lk)).
    { intros K. now rewrite K in Hkey. }
    destruct (needs_agent held key) eqn:Hneed.
    + destruct (Agent_init w a) as [e|] eqn:Hinit.
      * destruct (Hout held [Construct a; init_error e])
          as (o & ex' & l & E & Q & Ho).
        rewrite E. destruct (Hev [Construct a; init_error e] l Q) as [Hi Hc].
        exists o, held, ex'. eexists. split; [reflexivity|].
        rewrite Hi, Hc.
        refine (conj eq_refl (conj eq_refl (conj eq_refl (conj _ (conj _ Ho))))).
        -- intros _ e' [= <-]. apply Hmid. right. now left.
        -- intros K. now rewrite K in Hkey.
      * destruct (Hout (Some a)
          [Construct a;
           Draw in_sidebar
             (st_success (check_mark ++ py " Agent initialized successfully!"))])
          as (o & ex' & l & E & Q & Ho).
        rewrite E.
        destruct (Hev
          [Construct a;
           Draw in_sidebar
             (st_success (check_mark ++ py " Agent initialized successfully!"))]
          l Q) as [Hi Hc].
        exists o, (Some a), ex'. eexists. split; [reflexivity|].
        rewrite Hi, Hc.
        refine (conj eq_refl (conj eq_refl (conj eq_refl (conj _ (conj _ Ho))))).
        -- intros _ e' [=].
        -- intros K. now rewrite K in Hkey.
    + destruct (Hout held []) as (o & ex' & l & E & Q & Ho).
      rewrite E. destruct (Hev [] l Q) as [Hi Hc].
      exists o, held, ex'. eexists. split; [reflexivity|].
      rewrite Hi, Hc.
      refine (conj eq_refl (conj eq_refl (conj eq_refl (conj _ (conj _ Ho))))).
      -- intros [=].
      -- intros K. now rewrite K in Hkey.
  - destruct (Hout held [key_reminder]) as (o & ex' & l & E & Q & Ho).
    rewrite E. destruct (Hev [key_reminder] l Q) as [Hi Hc].
    exists o, held, ex'. eexists. split; [reflexivity|].
    rewrite Hi, Hc.
    refine (conj eq_refl (conj eq_refl (conj eq_refl (conj _ (conj _ Ho))))).
    -- intros [=].
    -- intros _. apply Hmid. now left.
Qed.

(** What the script has done when it reaches the chat input. *)
Lemma prelude_spec w s :
  exists o ms1 held1 ex1 l1,
    prelude w s
    = (o, {| messages := Some ms1; agent := Some held1; example_prompt := ex1 |}, l1)
    /\ invocations l1 = []
    /\ constructions l1
       = (if attempts w s then [Construct (agent_for w)] else [])
    /\ held1 = (if attempts w s
                then match Agent_init w (agent_for w) with
                     | None => Some (agent_for w)
                     | Some _ => handle s
                     end
                else handle s)
    /\ (attempts w s = true ->
        forall e, Agent_init w (agent_for w) = Some e -> In (init_error e) l1)
    /\ (supplied_key w = [] -> In key_reminder l1)
    /\ (o = Done tt /\ ms1 = history s ++ pending s /\ ex1 = None
        \/ o = Rerun /\ ms1 = history s /\ exists p, ex1 = Some p
             /\ In p (load_example_prompts (example_prompts_txt w))
             /\ button w (py "example_" ++ slice_to 20 p) = true).
Proof.
  unfold prelude. unfold bind at 1. rewrite init_session_state_spec.
  unfold bind at 1. unfold normal.
  destruct (sidebar_spec w (history s) (handle s) (example_prompt s))
    as (o & held' & ex' & l & E & Hi & Hc & Hh & He & Hk & Ho).
  cbv zeta in E. rewrite E.
  change (attempts w {| messages := Some (history s); agent := Some (handle s);
                        example_prompt := example_prompt s |})
    with (attempts w s) in *.
  destruct Ho as [[-> ->] | [-> (p & -> & Hin & Hb)]].
  - unfold bind at 1.
    destruct (display_chat_history_spec
      {| messages := Some (history s); agent := Some held';
         example_prompt := example_prompt s |} (history s) eq_refl)
      as (ld & Ed & Qd1 & Qd2).
    rewrite Ed.
    destruct (handle_example_prompt_spec (history s) (Some held') (example_prompt s))
      as (le & Ee & Qe1 & Qe2).
    cbv zeta in Ee. rewrite Ee.
    exists (Done tt), (history s ++ pending s), held', None.
    eexists. split; [reflexivity|]. cbn [app].
    rewrite !invocations_app, !constructions_app, Hi, Hc, Qd1, Qd2, Qe1, Qe2.
    rewrite !app_nil_r.
    refine (conj eq_refl (conj eq_refl (conj Hh (conj _ (conj _ _))))).
    + intros A e K. apply in_or_app. left. now apply He.
    + intros K. apply in_or_app. left. now apply Hk.
    + left. repeat split.
  - exists Rerun, (history s), held', (Some p).
    eexists. split; [reflexivity|]. cbn [app].
    refine (conj Hi (conj Hc (conj Hh (conj He (conj Hk _))))).
    right. repeat split. now exists p.
Qed.

Lemma script_split w s :
  script w s = bind (prelude w) (fun _ => handle_chat_input w) s.
Proof.
  unfold script, prelude. rewrite bind_assoc_at.
  apply bind_ext_at. intros _ s1. rewrite bind_assoc_at.
  apply bind_ext_at. intros _ s2. now rewrite bind_assoc_at.
Qed.

(** * Runs of the script *)

Lemma handle_chat_input_spec w ms held ex :
  let s := {| messages := Some ms; agent := Some held; example_prompt := ex |} in
  handle_chat_input w s =
  match chat_input w with
  | Some p =>
      if truthy p then
        match held with
        | None =>
            (Done tt,
             {| messages := Some (ms ++ [user_entry p]); agent := Some None;
                example_prompt := ex |},
             [user_bubble p; no_key_bubble])
        | Some a =>
            match Agent_run w a p with
            | inl c =>
                (Done tt,
                 {| messages :=
                      Some ((ms ++ [user_entry p]) ++ [assistant_entry c]);
                    agent := Some (Some a); example_prompt := ex |},
                 [user_bubble p; Run a p;
                  Draw (in_chat_message assistant) (st_markdown c)])
            | inr e =>
                (Done tt,
                 {| messages :=
                      Some ((ms ++ [user_entry p])
                            ++ [assistant_entry (error_prefix ++ e)]);
                    agent := Some (Some a); example_prompt := ex |},
                 [user_bubble p; Run a p;
                  Draw (in_chat_message assistant)
                    (st_error (error_prefix ++ e))])
            end
        end
      else (Done tt, s, [])
  | None => (Done tt, s, [])
  end.
Proof.
  intros s. unfold handle_chat_input. destruct (chat_input w) as [p|]; [|reflexivity].
  destruct (truthy p); [|reflexivity].
  destruct held as [a|]; [|reflexivity].
  unfold when, bind, messages_append, get_messages, set_messages, draw, emit,
    generate_response, get_agent, try_except, agent_run, bind, emit.
  cbn. destruct (Agent_run w a p); reflexivity.
Qed.

(** Replaces a run of the script by what it computes: the run either stops
    at [st.rerun()] in the sidebar or goes through the chat input. *)
Ltac run_script w s :=
  let o := fresh "o" in let ms1 := fresh "ms1" in let held1 := fresh "held1" in
  let ex1 := fresh "ex1" in let l1 := fresh "l1" in
  let E := fresh "Epre" in let Hi := fresh "Hinv" in let Hc := fresh "Hcons" in
  let Hh := fresh "Hheld" in let He := fresh "Herr" in let Hk := fresh "Hkey" in
  let Ho := fresh "Hout" in
  destruct (prelude_spec w s)
    as (o & ms1 & held1 & ex1 & l1 & E & Hi & Hc & Hh & He & Hk & Ho);
  unfold submitted in *;
  rewrite ?script_split in *; unfold bind in *; rewrite ?E in *;
  cbn [outcome_of state_of events_of fst snd] in *;
  destruct Ho as [(-> & -> & ->) | (-> & -> & ?p & -> & ?Hin & ?Hb)];
  [ rewrite ?handle_chat_input_spec in * | ];
  cbn [outcome_of state_of events_of fst snd] in *.

Lemma script_extends w s :
  exists added, history (state_of (script w s)) = history s ++ added.
Proof.
  run_script w s.
  - destruct (chat_input w) as [p|]; [destruct (truthy p)|];
      [destruct held1 as [a|]; [destruct (Agent_run w a p)|]| |];
      cbn [state_of fst snd history messages]; rewrite <- ?app_assoc;
      eexists; reflexivity.
  - exists []. cbn. now rewrite app_nil_r.
Qed.

Lemma session_app ws1 : forall ws2 s,
  session (ws1 ++ ws2) s = session ws2 (session ws1 s).
Proof. induction ws1 as [|w ws1 IH]; intros ws2 s; cbn; [reflexivity | apply IH]. Qed.

Lemma session_extends ws : forall s,
  exists added, history (session ws s) = history s ++ added.
Proof.
  induction ws as [|w ws IH]; intros s; cbn [session].
  - exists []. now rewrite app_nil_r.
  - destruct (script_extends w s) as (a1 & E1).
    destruct (IH (state_of (script w s))) as (a2 & E2).
    exists (a1 ++ a2). now rewrite E2, E1, app_assoc.
Qed.

(** C1.  Over any sequence of runs, whatever each run receives (a pressed
    example button, a submitted text, a responding or a failing agent, no
    key), the chat history only grows at its end: the history after more
    runs is the earlier history followed by new entries, so its length
    never decreases and every earlier entry is still at its position. *)
Theorem messages_append_only (ws1 ws2 : list World) (s : SessionState) :
  let before := history (session ws1 s) in
  let after := history (session (ws1 ++ ws2) s) in
  (exists added, after = before ++ added)
  /\ List.length before <= List.length after
  /\ (forall i m, nth_error before i = Some m -> nth_error after i = Some m).
Proof.
  cbv zeta. rewrite session_app.
  destruct (session_extends ws2 (session ws1 s)) as (added & E). rewrite E.
  split; [now exists added|]. split.
  - rewrite length_app. lia.
  - intros i m H. rewrite nth_error_app1; [exact H|].
    apply nth_error_Some. congruence.
Qed.

Lemma In_invocations ev l : In ev l -> is_run ev = true -> In ev (invocations l).
Proof. intros H1 H2. apply filter_In. now split. Qed.

Lemma In_constructions ev l :
  In ev l -> is_construct ev = true -> In ev (constructions l).
Proof. intros H1 H2. apply filter_In. now split. Qed.

Lemma startswith_app p : forall e, startswith (p ++ e) p = true.
Proof.
  induction p as [|c p IH]; intros e; [reflexivity|].
  cbn [app startswith]. now rewrite N.eqb_refl, IH.
Qed.

(** One run with its agent call, if it makes one. *)
Lemma script_invocations w s :
  invocations (events_of (script w s))
  = match submitted w s, handle (state_of (script w s)) with
    | Some p, Some a => [Run a p]
    | _, _ => []
    end.
Proof.
  run_script w s.
  - destruct (chat_input w) as [p|]; [destruct (truthy p)|];
      [destruct held1 as [a|]; [destruct (Agent_run w a p)|]| |];
      cbn [events_of state_of fst snd handle agent];
      rewrite invocations_app, Hinv; reflexivity.
  - exact Hinv.
Qed.

Lemma script_constructions w s :
  constructions (events_of (script w s))
  = if attempts w s then [Construct (agent_for w)] else [].
Proof.
  run_script w s.
  - destruct (chat_input w) as [p|]; [destruct (truthy p)|];
      [destruct held1 as [a|]; [destruct (Agent_run w a p)|]| |];
      cbn [events_of state_of fst snd]; rewrite constructions_app, Hcons;
      cbn; now rewrite app_nil_r.
  - exact Hcons.
Qed.

Lemma script_handle w s :
  handle (state_of (script w s))
  = if attempts w s
    then match Agent_init w (agent_for w) with
         | None => Some (agent_for w)
         | Some _ => handle s
         end
    else handle s.
Proof.
  run_script w s.
  - destruct (chat_input w) as [p|]; [destruct (truthy p)|];
      [destruct held1 as [a|]; [destruct (Agent_run w a p)|]| |];
      cbn [state_of fst snd handle agent]; trivial.
  - exact Hheld.
Qed.

Lemma script_outcome w s :
  outcome_of (script w s) = Done tt \/ outcome_of (script w s) = Rerun.
Proof.
  run_script w s.
  - left. destruct (chat_input w) as [p|]; [destruct (truthy p)|];
      [destruct held1 as [a|]; [destruct (Agent_run w a p)|]| |];
      reflexivity.
  - now right.
Qed.

(** One run whose agent call raises, from any state of the session. *)
Lemma script_on_agent_failure w s a p e :
  In (Run a p) (events_of (script w s)) ->
  Agent_run w a p = inr e ->
  let r := script w s in
  outcome_of r = Done tt
  /\ history (state_of r)
     = history s ++ pending s
       ++ [user_entry p; assistant_entry (error_prefix ++ e)]
  /\ startswith (error_prefix ++ e) error_prefix = true
  /\ invocations (events_of r) = [Run a p]
  /\ handle (state_of r) = Some a
  /\ (example_prompt s = None ->
      List.length (history (state_of r)) = List.length (history s) + 2).
Proof.
  intros Hin Hrun. cbv zeta.
  apply In_invocations in Hin; [|reflexivity].
  revert Hin.
  run_script w s.
  - destruct (chat_input w) as [q|]; [destruct (truthy q)|];
      [destruct held1 as [b|]; [destruct (Agent_run w b q) as [c|e'] eqn:Rb|]| |];
      cbn [events_of state_of outcome_of fst snd handle agent history messages];
      rewrite invocations_app, Hinv;
      cbn [invocations filter is_run app user_bubble no_key_bubble In];
      intros Hin;
      try (destruct Hin as [Hin | []]; injection Hin as -> ->); try contradiction.
    + congruence.
    + rewrite Rb in Hrun. injection Hrun as ->.
      rewrite <- !app_assoc. rewrite startswith_app.
      repeat split. intros Hex. unfold pending. rewrite Hex.
      rewrite !length_app. cbn. lia.
  - rewrite Hinv. intros [].
Qed.

Lemma script_events_prelude w s :
  exists more, events_of (script w s) = events_of (prelude w s) ++ more.
Proof.
  rewrite script_split. unfold bind.
  destruct (prelude w s) as [[[[]| e |] s1] l1]; cbn [events_of snd].
  - destruct (handle_chat_input w s1) as [[o2 s2] l2]. now exists l2.
  - exists []. now rewrite app_nil_r.
  - exists []. now rewrite app_nil_r.
Qed.

(** C6.  When the [Agent] constructor is called in a run and raises, the
    exception is caught where it occurs: lines 67-84 end normally, and in
    a run whose example buttons Streamlit accepts the script goes on to its
    end, or to the [st.rerun()] of a pressed button.  The text
    [Error initializing agent:] followed by the exception's message is
    drawn in the sidebar, the agent handle of the session is the one held
    before the run ([None] if there was none), and the chat history is
    only extended. *)
Theorem construction_failure_is_contained w s a e :
  In (Construct a) (events_of (script w s)) ->
  Agent_init w a = Some e ->
  let r := script w s in
  outcome_of (initialize_agent w (supplied_key w) (normal s)) = Done tt
  /\ (buttons_accepted w = true ->
      outcome_of r = Done tt \/ outcome_of r = Rerun)
  /\ In (init_error e) (events_of r)
  /\ handle (state_of r) = handle s
  /\ exists added, history (state_of r) = history s ++ added.
Proof.
  intros Hin Hinit. cbv zeta.
  apply In_constructions in Hin; [|reflexivity].
  rewrite script_constructions in Hin.
  destruct (attempts w s) eqn:A; [|destruct Hin].
  destruct Hin as [[= <-] | []].
  split.
  { unfold normal. rewrite initialize_agent_spec.
    destruct (truthy (supplied_key w)); [|reflexivity].
    destruct (needs_agent (handle s) (supplied_key w)); [|reflexivity].
    now destruct (Agent_init w _). }
  split; [intros _; apply script_outcome|].
  split; [|split; [|apply script_extends]].
  - destruct (script_events_prelude w s) as (more & ->).
    apply in_or_app. left.
    destruct (prelude_spec w s)
      as (o & ms1 & held1 & ex1 & l1 & E & _ & _ & _ & Herr & _).
    rewrite E. now apply Herr.
  - rewrite script_handle, A. now rewrite Hinit.
Qed.

Lemma construction_failure_is_contained_witness :
  let w := construction_raising (py "bad key") (typing (py "hi") (with_key sk nothing)) in
  let r := script w fresh in
  buttons_accepted w = true
  /\ (outcome_of (initialize_agent w (supplied_key w) (normal fresh)) = Done tt
      /\ (buttons_accepted w = true ->
          outcome_of r = Done tt \/ outcome_of r = Rerun)
      /\ In (init_error (py "bad key")) (events_of r)
      /\ handle (state_of r) = handle fresh
      /\ exists added, history (state_of r) = history fresh ++ added).
Proof.
  split; [reflexivity|].
  apply (construction_failure_is_contained
           (construction_raising (py "bad key") (typing (py "hi") (with_key sk nothing)))
           fresh the_agent (py "bad key")).
  - vm_compute. tauto.
  - reflexivity.
Defined.

Lemma session_events_app ws1 : forall ws2 s,
  session_events (ws1 ++ ws2) s
  = session_events ws1 s ++ session_events ws2 (session ws1 s).
Proof.
  induction ws1 as [|w ws1 IH]; intros ws2 s; cbn [app session_events session].
  - reflexivity.
  - now rewrite IH, app_assoc.
Qed.

Lemma keyless_attempts w s : supplied_key w = [] -> attempts w s = false.
Proof. intros K. unfold attempts. now rewrite K. Qed.

Lemma keyless_run w s :
  supplied_key w = [] -> handle s = None ->
  handle (state_of (script w s)) = None
  /\ constructions (events_of (script w s)) = []
  /\ invocations (events_of (script w s)) = [].
Proof.
  intros K H.
  assert (Hh : handle (state_of (script w s)) = None).
  { now rewrite script_handle, keyless_attempts. }
  split; [exact Hh|]. split.
  - now rewrite script_constructions, keyless_attempts.
  - rewrite script_invocations, Hh. now destruct (submitted w s).
Qed.

Lemma keyless_session ws : forall s,
  Forall (fun v => supplied_key v = []) ws -> handle s = None ->
  handle (session ws s) = None
  /\ constructions (session_events ws s) = []
  /\ invocations (session_events ws s) = [].
Proof.
  induction ws as [|w ws IH]; intros s Hall H; cbn [session session_events].
  - now repeat split.
  - inversion Hall as [|? ? K Hall']; subst.
    destruct (keyless_run w s K H) as (H1 & C1 & I1).
    destruct (IH _ Hall' H1) as (H2 & C2 & I2).
    split; [exact H2|].
    now rewrite constructions_app, invocations_app, C1, C2, I1, I2.
Qed.

Lemma idle_run w s :
  script (idle w) s
  = match prelude w s with
    | (o, s1, l1) => (o, s1, match o with Done _ => l1 ++ [] | _ => l1 end)
    end.
Proof.
  rewrite script_split. unfold bind.
  change (prelude (idle w) s) with (prelude w s).
  destruct (prelude w s) as [[[[]| e |] s1] l1]; reflexivity.
Qed.

(** C2 (amended).  In a session that holds no agent handle, over any
    number of runs without a key: the handle stays [None], the constructor
    and the agent are never called, and every text submitted through the
    chat input yields, beyond what the run does without a submission,
    exactly the user's bubble followed by the fixed warning drawn as an
    assistant bubble; the history gains the user entry only. *)
Theorem keyless_session_warns ws w s :
  handle s = None ->
  Forall (fun v => supplied_key v = []) ws ->
  supplied_key w = [] ->
  let s' := session ws s in
  let r := script w s' in
  handle s' = None
  /\ handle (state_of r) = None
  /\ constructions (session_events (ws ++ [w]) s) = []
  /\ invocations (session_events (ws ++ [w]) s) = []
  /\ forall p, submitted w s' = Some p ->
       outcome_of r = Done tt
       /\ events_of r
          = events_of (script (idle w) s') ++ [user_bubble p; no_key_bubble]
       /\ history (state_of r)
          = history (state_of (script (idle w) s')) ++ [user_entry p].
Proof.
  intros H Hall K. cbv zeta.
  destruct (keyless_session ws s Hall H) as (H1 & C1 & I1).
  destruct (keyless_run w (session ws s) K H1) as (H2 & C2 & I2).
  split; [exact H1|]. split; [exact H2|].
  rewrite session_events_app, constructions_app, invocations_app.
  cbn [session_events]. rewrite !app_nil_r, C1, C2, I1, I2.
  split; [reflexivity|]. split; [reflexivity|].
  intros p. rewrite idle_run. revert H2. generalize (session ws s) as s1.
  intros s1. run_script w s1.
  - destruct (chat_input w) as [q|]; [|discriminate].
    destruct (truthy q); [|discriminate].
    intros Hh [= ->]. cbn [state_of handle agent fst snd] in Hh.
    destruct held1 as [a|].
    + destruct (Agent_run w a p); discriminate.
    + cbn [outcome_of events_of state_of history messages fst snd].
      now rewrite !app_nil_r.
  - discriminate.
Qed.

Lemma keyless_session_warns_witness :
  let w := typing (py "hi") nothing in
  let s' := session [nothing; typing (py "first") nothing] fresh in
  let r := script w s' in
  submitted w s' = Some (py "hi")
  /\ (handle s' = None
      /\ handle (state_of r) = None
      /\ constructions
           (session_events ([nothing; typing (py "first") nothing] ++ [w]) fresh) = []
      /\ invocations
           (session_events ([nothing; typing (py "first") nothing] ++ [w]) fresh) = []
      /\ forall p, submitted w s' = Some p ->
           outcome_of r = Done tt
           /\ events_of r
              = events_of (script (idle w) s') ++ [user_bubble p; no_key_bubble]
           /\ history (state_of r)
              = history (state_of (script (idle w) s')) ++ [user_entry p]).
Proof.
  split; [reflexivity|].
  apply (keyless_session_warns
           [nothing; typing (py "first") nothing] (typing (py "hi") nothing) fresh).
  - reflexivity.
  - repeat constructor.
  - reflexivity.
Defined.

(** C2 as stated fails in a run without a key that follows a run with
    one: the handle built earlier is still held, so the submitted text goes
    to the agent and no warning is drawn. *)
Lemma cleared_key_still_calls_agent :
  let w1 := with_key sk nothing in
  let w2 := typing (py "hi") nothing in
  let s1 := state_of (script w1 fresh) in
  let r := script w2 s1 in
  supplied_key w2 = []
  /\ submitted w2 s1 = Some (py "hi")
  /\ handle (state_of r) = Some the_agent
  /\ invocations (events_of r) = [Run the_agent (py "hi")]
  /\ replies (events_of r)
     = [Draw (in_chat_message assistant) (st_markdown (py "Here is the news."))].
Proof. vm_compute. repeat split. Qed.

Lemma text_eqb_neq a b : text_eqb a b = false <-> a <> b.
Proof.
  split.
  - intros H E. apply text_eqb_eq in E. congruence.
  - intros H. destruct (text_eqb a b) eqn:E; [|reflexivity].
    apply text_eqb_eq in E. contradiction.
Qed.

Lemma attempts_iff w s :
  attempts w s = true <->
  supplied_key w <> []
  /\ (handle s = None
      \/ exists a, handle s = Some a /\ api_key (model a) <> supplied_key w).
Proof.
  unfold attempts, needs_agent. rewrite andb_true_iff. split.
  - intros [Hk Hn]. split.
    + intros K. now rewrite K in Hk.
    + destruct (handle s) as [a|]; [right | now left].
      exists a. split; [reflexivity|]. apply text_eqb_neq.
      now apply negb_true_iff.
  - intros [Hk Hn]. split.
    + destruct (supplied_key w); [contradiction | reflexivity].
    + destruct Hn as [-> | (a & -> & Hne)]; [reflexivity|].
      apply negb_true_iff. now apply text_eqb_neq.
Qed.

(** C4 (amended).  A run calls the [Agent] constructor, once, if and only
    if its key is non-empty and either no handle is held or the key
    differs from the one in the held handle.  A held handle with the key of
    the run is reused without a constructor call.  From a session without
    a handle, two consecutive runs with the same non-empty key call the
    constructor exactly once when that call does not raise, and the second
    run keeps the handle the first one built. *)
Theorem agent_constructed_when_key_requires_it (w : World) (s : SessionState) :
  let built := constructions (events_of (script w s)) in
  (built = [] \/ built = [Construct (agent_for w)])
  /\ (built <> [] <->
      supplied_key w <> []
      /\ (handle s = None
          \/ exists a, handle s = Some a
                       /\ api_key (model a) <> supplied_key w))
  /\ (forall a, handle s = Some a -> api_key (model a) = supplied_key w ->
        built = [] /\ handle (state_of (script w s)) = Some a)
  /\ (forall w2,
        supplied_key w <> [] -> supplied_key w2 = supplied_key w ->
        handle s = None -> Agent_init w (agent_for w) = None ->
        handle (session [w] s) = Some (agent_for w)
        /\ handle (session [w; w2] s) = Some (agent_for w)
        /\ constructions (session_events [w; w2] s) = [Construct (agent_for w)]).
Proof.
  cbv zeta. rewrite script_constructions.
  split; [destruct (attempts w s); auto|].
  split.
  { rewrite <- attempts_iff. destruct (attempts w s); split; intros H;
      congruence. }
  split.
  { intros a Ha Hk.
    assert (A : attempts w s = false).
    { destruct (attempts w s) eqn:A; [|reflexivity].
      apply attempts_iff in A as [_ [Hn | (b & Hb & Hne)]]; congruence. }
    rewrite script_handle, A. now split. }
  intros w2 Kne K2 Hnone Hinit.
  assert (Aw : attempts w s = true).
  { apply attempts_iff. split; [exact Kne | now left]. }
  cbn [session session_events].
  assert (Hh : handle (state_of (script w s)) = Some (agent_for w)).
  { now rewrite script_handle, Aw, Hinit. }
  assert (A2 : attempts w2 (state_of (script w s)) = false).
  { destruct (attempts w2 (state_of (script w s))) eqn:A2; [|reflexivity].
    apply attempts_iff in A2 as [_ [Hn | (b & Hb & Hne)]]; [congruence|].
    rewrite Hh in Hb. injection Hb as <-. now rewrite K2 in Hne. }
  split; [exact Hh|]. split.
  - now rewrite script_handle, A2.
  - rewrite app_nil_r, constructions_app, !script_constructions, Aw, A2.
    reflexivity.
Qed.

Lemma agent_constructed_when_key_requires_it_witness :
  let w := with_key sk nothing in
  handle (session [w] fresh) = Some the_agent
  /\ handle (session [w; typing (py "hi") w] fresh) = Some the_agent
  /\ constructions (session_events [w; typing (py "hi") w] fresh)
     = [Construct the_agent].
Proof.
  apply (proj2 (proj2 (proj2
           (agent_constructed_when_key_requires_it (with_key sk nothing) fresh)))
           (typing (py "hi") (with_key sk nothing)));
    [discriminate | reflexivity | reflexivity | reflexivity].
Defined.

(** C4 as stated fails in a run without a key: no handle exists yet, and
    the constructor is not called. *)
Lemma no_key_no_construction :
  handle fresh = None
  /\ supplied_key nothing = []
  /\ constructions (events_of (script nothing fresh)) = []
  /\ handle (state_of (script nothing fresh)) = None.
Proof. repeat split. Qed.

(** A run without a submission in the chat input calls no agent and draws
    no reply, whether or not it consumes a pending example prompt. *)
Lemma example_alone_never_reaches_agent w s :
  chat_input w = None ->
  invocations (events_of (script w s)) = []
  /\ replies (events_of (script w s)) = replies (events_of (prelude w s))
  /\ (outcome_of (script w s) = Done tt ->
      history (state_of (script w s)) = history s ++ pending s).
Proof.
  intros Hc. run_script w s; rewrite ?Hc;
    cbn [outcome_of state_of events_of fst snd history messages].
  - rewrite !app_nil_r. now repeat split.
  - repeat split; trivial. discriminate.
Qed.

(** C5.  The two paths do not take the same next step.  Pressing the
    first example button stores the prompt and reruns the script; the
    rerun appends the user entry and then stops: the agent is not called
    and nothing is drawn for the assistant, with a handle or without one.
    The same text typed into the chat input is sent to the agent, or,
    without a handle, answered by the warning. *)
Theorem example_prompt_is_not_dispatched :
  let press := pressing (py "example_Tell me about a brea") (with_key sk nothing) in
  let rerun := with_key sk nothing in
  let typed := typing times_square (with_key sk nothing) in
  (outcome_of (script press fresh) = Rerun
   /\ example_prompt (state_of (script press fresh)) = Some times_square
   /\ handle (state_of (script press fresh)) = Some the_agent)
  /\ (history (session [press; rerun] fresh) = [user_entry times_square]
      /\ invocations (session_events [press; rerun] fresh) = []
      /\ replies (session_events [press; rerun] fresh) = [])
  /\ (history (session [rerun; typed] fresh)
      = [user_entry times_square; assistant_entry (py "Here is the news.")]
      /\ invocations (session_events [rerun; typed] fresh)
         = [Run the_agent times_square])
  /\ (history (session [pressing (py "example_Tell me about a brea") nothing; nothing] fresh)
      = [user_entry times_square]
      /\ replies (session_events
                    [pressing (py "example_Tell me about a brea") nothing; nothing] fresh)
         = []
      /\ replies (session_events [nothing; typing times_square nothing] fresh)
         = [no_key_bubble]).
Proof. vm_compute. repeat split. Qed.

(** C7 as stated fails when the constructor raises: a non-empty key has
    been supplied and the handle is still [None]. *)
Lemma key_supplied_construction_failed :
  let w := construction_raising (py "bad key") (with_key sk nothing) in
  supplied_key w = sk
  /\ sk <> []
  /\ constructions (events_of (script w fresh)) = [Construct the_agent]
  /\ handle (state_of (script w fresh)) = None.
Proof. vm_compute. repeat split. discriminate. Qed.

Lemma agent_for_key w : api_key (model (agent_for w)) = supplied_key w.
Proof. reflexivity. Qed.

Lemma script_handle_origin w s a :
  handle (state_of (script w s)) = Some a ->
  handle s = Some a
  \/ (a = agent_for w /\ supplied_key w <> [] /\ Agent_init w a = None).
Proof.
  rewrite script_handle. destruct (attempts w s) eqn:A; [|now left].
  destruct (Agent_init w (agent_for w)) eqn:I; [now left|].
  intros [= <-]. right. apply attempts_iff in A as [K _]. now repeat split.
Qed.

Lemma session_handle_origin ws : forall s a,
  handle (session ws s) = Some a ->
  handle s = Some a
  \/ exists w, In w ws /\ a = agent_for w /\ supplied_key w <> []
               /\ Agent_init w a = None.
Proof.
  induction ws as [|w ws IH]; intros s a; cbn [session]; [now left|].
  intros H. destruct (IH _ _ H) as [H1 | (v & Hin & Hv)].
  - destruct (script_handle_origin w s a H1) as [H0 | Hw]; [now left|].
    right. exists w. split; [now left | exact Hw].
  - right. exists v. split; [now right | exact Hv].
Qed.

(** C7 (amended).  In every state reached from a new session, a held
    handle carries a non-empty key that was the key of an earlier run whose
    constructor call returned; a run with a non-empty key whose constructor
    call returns ends with a handle; the agent is only ever called through
    the handle the session holds; and when the session holds none, a
    submitted text calls no agent and gets the warning bubble instead. *)
Theorem handle_only_from_supplied_key (ws : list World) :
  let s := session ws fresh in
  (forall a, handle s = Some a ->
     api_key (model a) <> []
     /\ exists w, In w ws /\ supplied_key w = api_key (model a)
                  /\ Agent_init w a = None)
  /\ (forall w, supplied_key w <> [] -> Agent_init w (agent_for w) = None ->
        exists a, handle (state_of (script w s)) = Some a)
  /\ (forall w a p, In (Run a p) (events_of (script w s)) ->
        handle (state_of (script w s)) = Some a)
  /\ (forall w p, handle (state_of (script w s)) = None ->
        submitted w s = Some p ->
        invocations (events_of (script w s)) = []
        /\ In no_key_bubble (events_of (script w s))).
Proof.
  cbv zeta. split; [|split; [|split]].
  - intros a H. destruct (session_handle_origin ws fresh a H) as [H0 | (w & Hin & -> & K & I)].
    + discriminate.
    + rewrite agent_for_key. split; [exact K|]. now exists w.
  - intros w K I. rewrite script_handle.
    destruct (attempts w (session ws fresh)) eqn:A.
    + rewrite I. now eexists.
    + destruct (handle (session ws fresh)) as [a|] eqn:H; [now exists a|].
      exfalso. assert (attempts w (session ws fresh) = true); [|congruence].
      apply attempts_iff. split; [exact K | now left].
  - intros w a p Hin. apply In_invocations in Hin; [|reflexivity].
    rewrite script_invocations in Hin.
    destruct (submitted w (session ws fresh)); [|destruct Hin].
    destruct (handle (state_of (script w (session ws fresh)))); [|destruct Hin].
    destruct Hin as [[= <- _] | []]. reflexivity.
  - intros w p Hnone Hsub. split.
    + rewrite script_invocations, Hnone. now destruct (submitted w (session ws fresh)).
    + revert Hnone Hsub. generalize (session ws fresh) as s. intros s.
      run_script w s.
      * destruct (chat_input w) as [q|]; [|discriminate].
        destruct (truthy q); [|discriminate].
        destruct held1 as [a|]; [destruct (Agent_run w a q); discriminate|].
        intros _ _. cbn [events_of snd]. apply in_or_app. right. right. now left.
      * discriminate.
Qed.

Lemma handle_only_from_supplied_key_witness :
  api_key (model the_agent) <> []
  /\ exists w, In w [with_key sk nothing]
               /\ supplied_key w = api_key (model the_agent)
               /\ Agent_init w the_agent = None.
Proof.
  apply (proj1 (handle_only_from_supplied_key [with_key sk nothing]) the_agent).
  reflexivity.
Defined.

(** * The prompt loader *)

(** C8.  On an existing file [load_example_prompts] splits the content
    into lines, trims each line and drops the blank ones and those that
    begin with [#]:
    - the result is the trimmed lines that are non-empty and do not start
      with [#], in file order;
    - the lines of [splitlines] hold no line boundary and together hold
      every other code point of the content, in order;
    - a trimmed line is the line without a run of whitespace at each end,
      and neither its first nor its last code point is whitespace;
    - a blank line and a line beginning with [#] contribute nothing;
    - the content ["# comment\n\nHello\n  World  \n"] gives exactly
      [["Hello"; "World"]];
    - an absent file gives the fixed list of three examples. *)
Theorem load_example_prompts_spec :
  (forall c,
      load_example_prompts (Some c)
      = filter (fun ln => truthy ln && negb (startswith ln (py "#")))
          (map strip (splitlines c)))
  /\ (forall c p,
         In p (load_example_prompts (Some c)) <->
         exists ln, In ln (splitlines c) /\ p = strip ln /\ p <> []
                    /\ startswith p (py "#") = false)
  /\ (forall c, List.concat (splitlines c) = filter notbreak c)
  /\ (forall c ln, In ln (splitlines c) -> forallb notbreak ln = true)
  /\ (forall ln, exists a b,
         ln = a ++ strip ln ++ b /\ blank a = true /\ blank b = true)
  /\ (forall ln c,
         hd_error (strip ln) = Some c \/ hd_error (rev (strip ln)) = Some c ->
         isspace c = false)
  /\ (forall c ln,
         In ln (splitlines c) ->
         blank ln = true \/ startswith ln (py "#") = true ->
         ~ In (strip ln) (load_example_prompts (Some c)))
  /\ load_example_prompts
       (Some (py "# comment" ++ [LF; LF] ++ py "Hello" ++ [LF]
              ++ py "  World  " ++ [LF]))
     = [py "Hello"; py "World"]
  /\ load_example_prompts None
     = [ py "Tell me about a breaking news story happening in Times Square.";
         py "What's the latest development in NYC's tech scene?";
         py "Tell me about any upcoming events at Madison Square Garden" ]
  /\ List.length (load_example_prompts None) = 3.
Proof.
  split; [reflexivity|].
  split; [exact load_example_prompts_In|].
  split; [exact splitlines_concat|].
  split; [exact splitlines_nobreak|].
  split; [exact strip_decompose|].
  split.
  { intros ln c [H | H]; [exact (strip_first ln c H) | exact (strip_last ln c H)]. }
  split.
  { intros c ln _ Hdrop Hin.
    apply load_example_prompts_In in Hin as (ln' & _ & E & Hne & Hs).
    destruct Hdrop as [B | Hh].
    - apply Hne. exact (strip_blank ln B).
    - apply strip_keeps_hash in Hh. rewrite E in Hh. congruence. }
  repeat split.
Qed.

(** C9.  [load_system_prompt] returns the fixed fallback text when the
    file is missing, and the content of the file, whatever it is, when the
    file exists. *)
Theorem load_system_prompt_spec :
  load_system_prompt None = py "You are a helpful AI assistant."
  /\ forall c, load_system_prompt (Some c) = c.
Proof. split; reflexivity. Qed.

(** C10.  An existing file whose lines are all blank or begin with [#]
    gives the empty list, which is not the fallback list: the fallback is
    for an absent file only. *)
Theorem load_example_prompts_all_dropped (c : text) :
  (forall ln, In ln (splitlines c) ->
              blank ln = true \/ startswith ln (py "#") = true) ->
  load_example_prompts (Some c) = []
  /\ load_example_prompts (Some c) <> load_example_prompts None.
Proof.
  intros Hall.
  assert (E : load_example_prompts (Some c) = []).
  { destruct (load_example_prompts (Some c)) as [|p ps] eqn:L; [reflexivity|].
    assert (Hin : In p (load_example_prompts (Some c))) by (rewrite L; now left).
    apply load_example_prompts_In in Hin as (ln & Hln & -> & Hne & Hs).
    destruct (Hall ln Hln) as [B | Hh].
    - now rewrite (strip_blank ln B) in Hne.
    - apply strip_keeps_hash in Hh. congruence. }
  split; [exact E|]. rewrite E. discriminate.
Qed.

Lemma load_example_prompts_all_dropped_witness :
  let c := py "# only notes" ++ [LF; LF] ++ py "   " ++ [LF] ++ py "#x" in
  splitlines c = [py "# only notes"; []; py "   "; py "#x"]
  /\ load_example_prompts (Some c) = []
  /\ load_example_prompts (Some c) <> load_example_prompts None.
Proof.
  split; [reflexivity|].
  apply (load_example_prompts_all_dropped
           (py "# only notes" ++ [LF; LF] ++ py "   " ++ [LF] ++ py "#x")).
  intros ln Hin. cbn in Hin.
  destruct Hin as [<- | [<- | [<- | [<- | []]]]];
    [right | left | left | right]; reflexivity.
Defined.

(** * Further properties of the prompt loader *)

Lemma forallb_notbreak_app a b :
  forallb notbreak (a ++ b) = forallb notbreak a && forallb notbreak b.
Proof. apply forallb_app. Qed.

Lemma splitlines_from_line p rest : forall cur,
  forallb notbreak p = true ->
  splitlines_from cur (p ++ LF :: rest)
  = (rev cur ++ p) :: splitlines_from [] rest.
Proof.
  induction p as [|c p IH]; intros cur Hp.
  - cbn [app]. rewrite app_nil_r.
    change (splitlines_from cur (LF :: rest))
      with (rev cur :: match rest with
                       | d :: rest' =>
                           if N.eqb LF CR && N.eqb d LF
                           then splitlines_from [] rest'
                           else splitlines_from [] rest
                       | [] => splitlines_from [] rest
                       end).
    now destruct rest.
  - cbn [forallb] in Hp. apply andb_true_iff in Hp as [Hc Hp].
    cbn [app splitlines_from]. unfold notbreak in Hc.
    apply negb_true_iff in Hc. rewrite Hc, IH by exact Hp.
    cbn [rev]. now rewrite <- app_assoc.
Qed.

Lemma splitlines_unlines ps :
  Forall (fun p => forallb notbreak p = true) ps ->
  splitlines (unlines ps) = ps.
Proof.
  unfold splitlines, unlines. induction 1 as [|p ps Hp _ IH]; [reflexivity|].
  cbn [map List.concat]. rewrite <- app_assoc. cbn [app].
  rewrite splitlines_from_line by exact Hp. cbn [rev app]. now rewrite IH.
Qed.

Lemma lstrip_fixed s :
  (forall c, hd_error s = Some c -> isspace c = false) -> lstrip s = s.
Proof.
  destruct s as [|c s]; [reflexivity|]. intros H. cbn [lstrip].
  now rewrite (H c eq_refl).
Qed.

Lemma strip_idempotent s : strip (strip s) = strip s.
Proof.
  assert (L : lstrip (strip s) = strip s).
  { apply lstrip_fixed. intros c. apply strip_first. }
  unfold strip at 1. rewrite L. unfold rstrip.
  rewrite lstrip_fixed; [apply rev_involutive|].
  intros c. apply strip_last.
Qed.

Lemma strip_notbreak s :
  forallb notbreak s = true -> forallb notbreak (strip s) = true.
Proof.
  destruct (strip_decompose s) as (a & b & E & _). intros H.
  rewrite E, !forallb_notbreak_app in H.
  apply andb_true_iff in H as [_ H]. now apply andb_true_iff in H as [H _].
Qed.

Lemma clean_prompt_iff p :
  clean_prompt p = true <->
  forallb notbreak p = true /\ strip p = p /\ p <> []
  /\ startswith p (py "#") = false.
Proof.
  unfold clean_prompt. rewrite !andb_true_iff, negb_true_iff, text_eqb_eq.
  split.
  - intros [[[H1 H2] H3] H4]. repeat split; trivial. now destruct p.
  - intros (H1 & H2 & H3 & H4). repeat split; trivial.
    destruct p; [contradiction | reflexivity].
Qed.

Lemma load_clean_lines ps :
  Forall (fun p => clean_prompt p = true) ps ->
  load_example_prompts (Some (unlines ps)) = ps.
Proof.
  intros H. unfold load_example_prompts.
  rewrite splitlines_unlines.
  - induction H as [|p ps Hp _ IH]; [reflexivity|].
    apply clean_prompt_iff in Hp as (_ & Hs & Hne & Hh).
    cbn [map filter]. rewrite Hs, Hh.
    destruct p; [contradiction|]. cbn. now f_equal.
  - apply Forall_impl with (2 := H). intros p Hp.
    now apply clean_prompt_iff in Hp.
Qed.

Lemma loaded_prompts_clean c :
  Forall (fun p => clean_prompt p = true) (load_example_prompts (Some c)).
Proof.
  apply Forall_forall. intros p Hin.
  apply load_example_prompts_In in Hin as (ln & Hln & -> & Hne & Hh).
  apply clean_prompt_iff. repeat split; trivial.
  - apply strip_notbreak. now apply (splitlines_nobreak c).
  - apply strip_idempotent.
Qed.

(** X1.  A prompts file written with one prompt per line, each prompt a
    single trimmed non-empty line that does not start with [#], loads as
    exactly those prompts, in order and with repetitions. *)
Theorem clean_prompts_load_back (ps : list text) :
  Forall (fun p => clean_prompt p = true) ps ->
  load_example_prompts (Some (unlines ps)) = ps.
Proof. exact (load_clean_lines ps). Qed.

Lemma clean_prompts_load_back_witness :
  load_example_prompts
    (Some (unlines [py "What is new in Queens?"; py "Subway news"; py "Subway news"]))
  = [py "What is new in Queens?"; py "Subway news"; py "Subway news"].
Proof.
  apply (clean_prompts_load_back
           [py "What is new in Queens?"; py "Subway news"; py "Subway news"]).
  repeat constructor.
Defined.

(** X2.  Whatever the file holds, the prompts the loader returns are
    clean, and writing them back one per line and loading again returns
    the same list: loading normalises a prompts file in one pass. *)
Theorem load_example_prompts_stable (c : text) :
  let ps := load_example_prompts (Some c) in
  Forall (fun p => clean_prompt p = true) ps
  /\ load_example_prompts (Some (unlines ps)) = ps.
Proof.
  cbv zeta. split; [apply loaded_prompts_clean|].
  apply load_clean_lines, loaded_prompts_clean.
Qed.

Lemma load_unlines ls :
  Forall (fun ln => forallb notbreak ln = true) ls ->
  load_example_prompts (Some (unlines ls))
  = filter (fun ln => truthy ln && negb (startswith ln (py "#")))
      (map strip ls).
Proof. intros H. unfold load_example_prompts. now rewrite splitlines_unlines. Qed.

Lemma lstrip_indent ws s : blank ws = true -> lstrip (ws ++ s) = lstrip s.
Proof.
  induction ws as [|x ws IH]; [reflexivity|]. cbn [blank forallb].
  intros H. apply andb_true_iff in H as [Hx Hws].
  cbn [app lstrip]. rewrite Hx. now apply IH.
Qed.

(** X3.  The test for a comment is made on the trimmed line.  In a file
    of lines each ended by a line feed, a line that is blank, or whose
    first code point after leading whitespace is [#], can be put in or
    taken out anywhere without changing the prompts that are loaded. *)
Theorem ignored_lines_do_not_matter (before after : list text) (ln : text) :
  Forall (fun l => forallb notbreak l = true) (before ++ ln :: after) ->
  blank ln = true
  \/ (exists ws rest, ln = ws ++ HASH :: rest /\ blank ws = true) ->
  load_example_prompts (Some (unlines (before ++ ln :: after)))
  = load_example_prompts (Some (unlines (before ++ after))).
Proof.
  intros Hall Hln.
  assert (Hall' : Forall (fun l => forallb notbreak l = true) (before ++ after)).
  { apply Forall_app in Hall as [H1 H2]. apply Forall_app. split; [exact H1|].
    now inversion H2. }
  rewrite !load_unlines by assumption.
  rewrite !map_app, !filter_app. cbn [map filter].
  assert (K : truthy (strip ln) && negb (startswith (strip ln) (py "#")) = false).
  { destruct Hln as [B | (ws & rest & -> & B)].
    - now rewrite (strip_blank ln B).
    - assert (S : startswith (strip (ws ++ HASH :: rest)) (py "#") = true).
      { apply startswith_hash. exists (rstrip rest). unfold strip.
        rewrite lstrip_indent by exact B.
        change (lstrip (HASH :: rest)) with (HASH :: rest).
        now apply rstrip_cons. }
      rewrite S. apply andb_false_r. }
  now rewrite K.
Qed.

Lemma ignored_lines_do_not_matter_witness :
  load_example_prompts
    (Some (unlines ([py "Hello"] ++ py "   # a note" :: [py "C# news"])))
  = load_example_prompts (Some (unlines ([py "Hello"] ++ [py "C# news"])))
  /\ load_example_prompts (Some (unlines ([py "Hello"] ++ [py "C# news"])))
     = [py "Hello"; py "C# news"].
Proof.
  split; [|reflexivity].
  apply (ignored_lines_do_not_matter [py "Hello"] [py "C# news"] (py "   # a note")).
  - repeat constructor.
  - right. exists (py "   "), (py " a note"). split; reflexivity.
Defined.

Lemma splitlines_from_length s : forall cur,
  List.length (splitlines_from cur s)
  <= List.length s + (if truthy cur then 1 else 0).
Proof.
  induction s as [|c rest IH IH'] using text_ind2; intros cur.
  - destruct cur; cbn; lia.
  - cbn [splitlines_from]. destruct (islinebreak c).
    + cbn [List.length]. destruct rest as [|d rest'].
      * cbn. lia.
      * destruct (N.eqb c CR && N.eqb d LF).
        -- specialize (IH' d rest' eq_refl []). cbn in *. lia.
        -- specialize (IH []). cbn in *. lia.
    + specialize (IH (c :: cur)). cbn in *. lia.
Qed.

(** X4.  The loader returns at most one prompt per line of the file, and
    a file has at most as many lines as code points; in particular an
    empty file gives no prompt. *)
Theorem example_prompts_bounded (c : text) :
  List.length (load_example_prompts (Some c)) <= List.length (splitlines c)
  /\ List.length (splitlines c) <= List.length c.
Proof.
  split.
  - unfold load_example_prompts.
    etransitivity; [apply filter_length_le|]. now rewrite length_map.
  - pose proof (splitlines_from_length c []) as H. cbn in H.
    unfold splitlines. lia.
Qed.

(** * Further properties of a run *)

Lemma read_api_key_exact w s :
  exists l,
    read_api_key w s = (Done (supplied_key w), s, l)
    /\ forallb of_sidebar l = true.
Proof.
  unfold read_api_key, supplied_key.
  destruct (truthy (os_getenv w [])); eexists; split; reflexivity.
Qed.

Lemma initialize_agent_exact w ms held ex :
  let s := {| messages := Some ms; agent := Some held; example_prompt := ex |} in
  exists l,
    initialize_agent w (supplied_key w) s
    = (Done tt,
       {| messages := Some ms; agent := Some (configured w s); example_prompt := ex |},
       l)
    /\ forallb of_sidebar l = true.
Proof.
  intros s. subst s. rewrite initialize_agent_spec.
  unfold configured, attempts, agent_for. cbn [handle agent].
  destruct (truthy (supplied_key w)); cbn [andb].
  - destruct (needs_agent held (supplied_key w)).
    + destruct (Agent_init w _); eexists; split; reflexivity.
    + eexists; split; reflexivity.
  - eexists; split; reflexivity.
Qed.

Lemma example_button_loop_find w ps : forall s,
  exists l,
    forallb of_sidebar l = true
    /\ for_each ps (example_button w) s
       = match find (fun p => button w (example_key p)) ps with
         | Some p =>
             (Rerun,
              {| messages := messages s; agent := agent s;
                 example_prompt := Some p |}, l)
         | None => (Done tt, s, l)
         end.
Proof.
  induction ps as [|p ps IH]; intros s.
  - exists []. now split.
  - rewrite example_button_step. cbv zeta. cbn [find].
    change (py "example_" ++ slice_to 20 p) with (example_key p).
    destruct (button w (example_key p)).
    + eexists. split; [|reflexivity]. reflexivity.
    + destruct (IH s) as (l & Hl & E). rewrite E.
      exists (Draw in_sidebar (st_button p (example_key p)) :: l).
      split; [exact Hl|].
      now destruct (find (fun p0 => button w (example_key p0)) ps).
Qed.

Lemma sidebar_exact w ms held ex :
  let s := {| messages := Some ms; agent := Some held; example_prompt := ex |} in
  exists l,
    forallb of_sidebar l = true
    /\ sidebar w s
       = match pressed_example w with
         | Some p =>
             (Rerun,
              {| messages := Some ms; agent := Some (configured w s);
                 example_prompt := Some p |}, l)
         | None =>
             (Done tt,
              {| messages := Some ms; agent := Some (configured w s);
                 example_prompt := ex |}, l)
         end.
Proof.
  intros s. unfold sidebar. unfold bind at 1. cbn [draw emit].
  unfold bind at 1. destruct (read_api_key_exact w s) as (lk & Ek & Hk).
  rewrite Ek. unfold bind at 1.
  destruct (initialize_agent_exact w ms held ex) as (li & Ei & Hi).
  cbv zeta in Ei. fold s in Ei. rewrite Ei.
  unfold example_buttons. cbv zeta. unfold bind at 1. cbn [draw emit].
  destruct (example_button_loop_find w
              (load_example_prompts (example_prompts_txt w))
              {| messages := Some ms; agent := Some (configured w s);
                 example_prompt := ex |}) as (lb & Hb & Eb).
  rewrite Eb. unfold pressed_example.
  eexists. split; [|destruct (find _ _); reflexivity].
  cbn [app forallb of_sidebar andb].
  rewrite !forallb_app, Hk, Hi. cbn [forallb of_sidebar andb]. exact Hb.
Qed.

(** The script up to the chat input, in closed form. *)
Lemma prelude_exact w s :
  exists l,
    forallb of_sidebar l = true
    /\ prelude w s
       = match pressed_example w with
         | Some p =>
             (Rerun,
              {| messages := Some (history s); agent := Some (configured w s);
                 example_prompt := Some p |}, l)
         | None =>
             (Done tt,
              {| messages := Some (history s ++ pending s);
                 agent := Some (configured w s); example_prompt := None |},
              l ++ main_banner ++ map bubble (history s) ++ map bubble (pending s))
         end.
Proof.
  unfold prelude. unfold bind at 1. rewrite init_session_state_spec.
  unfold bind at 1. unfold normal.
  destruct (sidebar_exact w (history s) (handle s) (example_prompt s))
    as (l & Hl & E).
  cbv zeta in E.
  change (configured w {| messages := Some (history s); agent := Some (handle s);
                          example_prompt := example_prompt s |})
    with (configured w s) in E.
  rewrite E. exists l. split; [exact Hl|].
  destruct (pressed_example w) as [p|]; [reflexivity|].
  unfold bind at 1. unfold display_chat_history.
  unfold bind at 1. cbn [draw emit]. unfold bind at 1. cbn [draw emit].
  unfold bind at 1. cbn [get_messages messages]. rewrite display_loop.
  cbn [app].
  destruct (example_prompt s) as [p|] eqn:Ex; unfold pending; rewrite ?Ex.
  - reflexivity.
  - cbn [handle_example_prompt]. cbn. rewrite ?app_nil_r. reflexivity.
Qed.

Lemma pending_bubbles_quiet s : quiet (map bubble (pending s)).
Proof. unfold pending. destruct (example_prompt s); now split. Qed.

(** One run in closed form. *)
Lemma script_exact w s :
  exists side rest,
    forallb of_sidebar side = true
    /\ script w s
       = match pressed_example w with
         | Some p =>
             (Rerun,
              {| messages := Some (history s); agent := Some (configured w s);
                 example_prompt := Some p |}, side)
         | None =>
             (Done tt,
              {| messages :=
                   Some (history s ++ pending s ++ exchange w (configured w s));
                 agent := Some (configured w s); example_prompt := None |},
              side ++ main_banner ++ map bubble (history s) ++ rest)
         end
    /\ invocations rest
       = match submitted w s, configured w s with
         | Some p, Some a => [Run a p]
         | _, _ => []
         end
    /\ constructions rest = [].
Proof.
  destruct (prelude_exact w s) as (side & Hside & E).
  destruct (pending_bubbles_quiet s) as [Qc Qi].
  unfold submitted. rewrite script_split. unfold bind. rewrite E.
  exists side.
  destruct (pressed_example w) as [p|].
  - exists []. repeat split; trivial.
  - rewrite handle_chat_input_spec. unfold exchange.
    cbn [outcome_of fst].
    destruct (chat_input w) as [q|]; [destruct (truthy q)|];
      [destruct (configured w s) as [a|];
        [destruct (Agent_run w a q) as [c|e]|]| |].
    + exists (map bubble (pending s)
              ++ [user_bubble q; Run a q;
                  Draw (in_chat_message assistant) (st_markdown c)]).
      rewrite invocations_app, constructions_app, Qc, Qi, <- !app_assoc.
      now repeat split.
    + exists (map bubble (pending s)
              ++ [user_bubble q; Run a q;
                  Draw (in_chat_message assistant)
                    (st_error (error_prefix ++ e))]).
      rewrite invocations_app, constructions_app, Qc, Qi, <- !app_assoc.
      now repeat split.
    + exists (map bubble (pending s) ++ [user_bubble q; no_key_bubble]).
      rewrite invocations_app, constructions_app, Qc, Qi, <- !app_assoc.
      now repeat split.
    + exists (map bubble (pending s)).
      rewrite Qc, Qi, !app_nil_r. now repeat split.
    + exists (map bubble (pending s)).
      rewrite Qc, Qi, !app_nil_r. now repeat split.
Qed.


Lemma script_exact_handle w s : handle (state_of (script w s)) = configured w s.
Proof. unfold configured. apply script_handle. Qed.

Lemma same_key_same_prompt (ps : list text) (p q : text) :
  NoDup (map example_key ps) -> In p ps -> In q ps ->
  example_key p = example_key q -> p = q.
Proof.
  induction ps as [|x ps IH]; intros Hnd Hp Hq E; [destruct Hp|].
  cbn [map] in Hnd. inversion Hnd as [|? ? Hx Hnd']; subst.
  destruct Hp as [-> | Hp], Hq as [-> | Hq]; trivial.
  - exfalso. apply Hx. rewrite E. now apply in_map.
  - exfalso. apply Hx. rewrite <- E. now apply in_map.
  - now apply IH.
Qed.

Lemma distinct_NoDup ks : distinct ks = true -> NoDup ks.
Proof.
  induction ks as [|k ks IH]; cbn [distinct]; intros H; constructor.
  - apply andb_true_iff in H as [H _]. apply negb_true_iff in H.
    intros Hin. assert (E : existsb (text_eqb k) ks = true).
    { apply existsb_exists. exists k. split; [exact Hin|]. now apply text_eqb_eq. }
    congruence.
  - apply andb_true_iff in H as [_ H]. now apply IH.
Qed.

Lemma accepted_keys_distinct w :
  buttons_accepted w = true ->
  NoDup (map example_key (load_example_prompts (example_prompts_txt w))).
Proof.
  unfold buttons_accepted. cbv zeta. intros H.
  apply andb_true_iff in H as [H _]. now apply distinct_NoDup.
Qed.

(** X5.  In a run whose example buttons Streamlit accepts (distinct
    widget keys, none of them the slot name), pressing the button of an
    example stores exactly that example in the session and stops the run
    at [st.rerun()]: the history is not touched, the handle is the one the
    sidebar has just settled, and nothing outside the sidebar happens, so
    no history is drawn, the chat input is not read and the agent is not
    called. *)
Theorem pressing_an_example_button (w : World) (s : SessionState) (p : text) :
  In p (load_example_prompts (example_prompts_txt w)) ->
  buttons_accepted w = true ->
  (forall k, button w k = true <-> k = example_key p) ->
  let r := script w s in
  outcome_of r = Rerun
  /\ example_prompt (state_of r) = Some p
  /\ history (state_of r) = history s
  /\ handle (state_of r) = configured w s
  /\ forallb of_sidebar (events_of r) = true.
Proof.
  intros Hin Hacc Hb. cbv zeta.
  pose proof (accepted_keys_distinct w Hacc) as Hnd.
  assert (P : pressed_example w = Some p).
  { unfold pressed_example.
    destruct (find _ _) as [q|] eqn:F.
    - apply find_some in F as [Hq Bq]. apply Hb in Bq.
      f_equal. symmetry. now apply (same_key_same_prompt _ p q Hnd).
    - apply (find_none _ _ F) in Hin. cbv beta in Hin.
      assert (button w (example_key p) = true) by now apply Hb.
      congruence. }
  destruct (script_exact w s) as (side & rest & Hside & E & _ & _).
  rewrite P in E. rewrite E. now repeat split.
Qed.

Lemma pressing_an_example_button_witness :
  let w := pressing (example_key times_square) (with_key sk nothing) in
  let r := script w fresh in
  outcome_of r = Rerun
  /\ example_prompt (state_of r) = Some times_square
  /\ history (state_of r) = history fresh
  /\ handle (state_of r) = configured w fresh
  /\ forallb of_sidebar (events_of r) = true.
Proof.
  apply (pressing_an_example_button
           (pressing (example_key times_square) (with_key sk nothing))
           fresh times_square).
  - now left.
  - reflexivity.
  - intros k. apply text_eqb_eq.
Defined.

(** X6.  A pending example prompt is used once.  In runs whose example
    buttons Streamlit accepts, the run that gets past the sidebar with the
    slot filled appends the user entry and empties the slot, and the run
    after it appends nothing for it again. *)
Theorem pending_example_is_used_once (w1 w2 : World) (s : SessionState) :
  buttons_accepted w1 = true -> buttons_accepted w2 = true ->
  pressed_example w1 = None -> pressed_example w2 = None ->
  chat_input w1 = None -> chat_input w2 = None ->
  example_prompt (state_of (script w1 s)) = None
  /\ history (state_of (script w1 s)) = history s ++ pending s
  /\ history (session [w1; w2] s) = history s ++ pending s.
Proof.
  intros _ _ P1 P2 C1 C2. cbn [session].
  destruct (script_exact w1 s) as (side1 & rest1 & _ & E1 & _ & _).
  rewrite P1 in E1. rewrite E1. cbn [state_of fst snd].
  destruct (script_exact w2
    {| messages := Some (history s ++ pending s ++ exchange w1 (configured w1 s));
       agent := Some (configured w1 s); example_prompt := None |})
    as (side2 & rest2 & _ & E2 & _ & _).
  rewrite P2 in E2. rewrite E2. cbn [state_of fst snd history messages pending example_prompt].
  unfold exchange. rewrite C1, C2. cbn [app]. rewrite !app_nil_r.
  now repeat split.
Qed.

Lemma pending_example_is_used_once_witness :
  let s := state_of (script (pressing (example_key times_square) nothing) fresh) in
  pending s = [user_entry times_square]
  /\ (example_prompt (state_of (script nothing s)) = None
      /\ history (state_of (script nothing s)) = history s ++ pending s
      /\ history (session [nothing; nothing] s) = history s ++ pending s).
Proof.
  split; [reflexivity|].
  apply (pending_example_is_used_once nothing nothing
           (state_of (script (pressing (example_key times_square) nothing) fresh)));
    reflexivity.
Defined.

(** X7.  When a run finds an example prompt pending and a text submitted
    in the chat input, the example is taken first: its user entry comes
    before the user entry of the typed text, only the typed text gets an
    answer (at most one assistant entry, after both), and the slot is
    empty afterwards. *)
Theorem example_before_typed_text (w : World) (s : SessionState) (ex p : text) :
  example_prompt s = Some ex ->
  submitted w s = Some p ->
  let r := script w s in
  exists answer,
    history (state_of r)
    = history s ++ [user_entry ex; user_entry p] ++ answer
    /\ List.length answer <= 1
    /\ forallb is_assistant answer = true
    /\ example_prompt (state_of r) = None
    /\ invocations (events_of r)
       = match handle (state_of r) with
         | Some a => [Run a p]
         | None => []
         end.
Proof.
  intros Hex Hsub. cbv zeta.
  pose proof (script_invocations w s) as Hinv. rewrite Hsub in Hinv.
  rewrite Hinv. clear Hinv.
  destruct (script_exact w s) as (side & rest & _ & E & _ & _).
  unfold submitted in Hsub.
  destruct (prelude_exact w s) as (l & _ & Ep). rewrite Ep in Hsub.
  destruct (pressed_example w); [discriminate|].
  cbn [outcome_of fst] in Hsub. rewrite E. cbn [state_of fst snd history messages
    example_prompt handle agent].
  unfold pending, exchange. rewrite Hex.
  destruct (chat_input w) as [q|]; [|discriminate].
  destruct (truthy q); [|discriminate]. injection Hsub as ->.
  destruct (configured w s) as [a|].
  - destruct (Agent_run w a p) as [c|e]; eexists;
      (split; [reflexivity|]); now repeat split.
  - exists []. cbn [app]. repeat split; auto.
Qed.

Lemma example_before_typed_text_witness :
  let s := state_of (script (pressing (example_key times_square) (with_key sk nothing)) fresh) in
  let w := typing (py "hi") (with_key sk nothing) in
  let r := script w s in
  exists answer,
    history (state_of r)
    = history s ++ [user_entry times_square; user_entry (py "hi")] ++ answer
    /\ List.length answer <= 1
    /\ forallb is_assistant answer = true
    /\ example_prompt (state_of r) = None
    /\ invocations (events_of r)
       = match handle (state_of r) with
         | Some a => [Run a (py "hi")]
         | None => []
         end.
Proof.
  apply (example_before_typed_text
           (typing (py "hi") (with_key sk nothing))
           (state_of (script (pressing (example_key times_square) (with_key sk nothing)) fresh))
           times_square (py "hi")); reflexivity.
Defined.

(** X8.  In a run whose example buttons Streamlit accepts, when
    [agent.run] is called and returns, the history gains the user entry of
    the submitted text and then one assistant entry holding exactly
    [response.content] (after the user entry of a pending example prompt,
    if any); the content is also the last thing drawn, in an assistant
    bubble; the agent was called once, with the submitted text alone, on
    the handle the session keeps. *)
Theorem agent_answer_is_recorded (w : World) (s : SessionState)
    (a : Agent) (p c : text) :
  buttons_accepted w = true ->
  In (Run a p) (events_of (script w s)) ->
  Agent_run w a p = inl c ->
  let r := script w s in
  outcome_of r = Done tt
  /\ history (state_of r)
     = history s ++ pending s ++ [user_entry p; assistant_entry c]
  /\ (exists before,
        events_of r
        = before ++ [user_bubble p; Run a p;
                     Draw (in_chat_message assistant) (st_markdown c)])
  /\ invocations (events_of r) = [Run a p]
  /\ handle (state_of r) = Some a.
Proof.
  intros _ Hin Hrun. cbv zeta.
  apply In_invocations in Hin; [|reflexivity].
  rewrite script_invocations in Hin.
  destruct (submitted w s) as [q|] eqn:Hsub; [|destruct Hin].
  destruct (handle (state_of (script w s))) as [b|] eqn:Hh; [|destruct Hin].
  destruct Hin as [[= <- <-] | []].
  pose proof (script_invocations w s) as Hinv. rewrite Hsub, Hh in Hinv.
  rewrite script_exact_handle in Hh.
  unfold submitted in Hsub.
  destruct (prelude_exact w s) as (l & _ & Ep). rewrite Ep in Hsub.
  revert Hinv.
  rewrite script_split. unfold bind. rewrite Ep.
  destruct (pressed_example w); [discriminate|].
  cbn [outcome_of fst] in Hsub.
  rewrite handle_chat_input_spec, Hh.
  destruct (chat_input w) as [q'|]; [|discriminate].
  destruct (truthy q'); [|discriminate]. injection Hsub as ->.
  rewrite Hrun. cbn [outcome_of state_of events_of fst snd history messages handle agent].
  intros Hinv.
  split; [reflexivity|]. split; [now rewrite <- !app_assoc|].
  split; [eexists; reflexivity|]. split; [exact Hinv | reflexivity].
Qed.

Lemma agent_answer_is_recorded_witness :
  let w := typing (py "hi") (with_key sk nothing) in
  let r := script w fresh in
  outcome_of r = Done tt
  /\ history (state_of r)
     = history fresh ++ pending fresh
       ++ [user_entry (py "hi"); assistant_entry (py "Here is the news.")]
  /\ (exists before,
        events_of r
        = before ++ [user_bubble (py "hi"); Run the_agent (py "hi");
                     Draw (in_chat_message assistant)
                       (st_markdown (py "Here is the news."))])
  /\ invocations (events_of r) = [Run the_agent (py "hi")]
  /\ handle (state_of r) = Some the_agent.
Proof.
  apply (agent_answer_is_recorded (typing (py "hi") (with_key sk nothing))
           fresh the_agent (py "hi") (py "Here is the news.")).
  - reflexivity.
  - vm_compute. tauto.
  - reflexivity.
Defined.

(** X9.  Every run whose example buttons Streamlit accepts and in which
    none of them is pressed draws the page title and then the whole stored
    history, one bubble per entry, in order and under the entry's role,
    before it draws anything for a pending example or a submitted text. *)
Theorem history_is_redrawn (w : World) (s : SessionState) :
  buttons_accepted w = true ->
  pressed_example w = None ->
  exists side rest,
    forallb of_sidebar side = true
    /\ events_of (script w s)
       = side ++ main_banner ++ map bubble (history s) ++ rest.
Proof.
  intros _ P. destruct (script_exact w s) as (side & rest & Hside & E & _ & _).
  rewrite P in E. rewrite E. exists side, rest. now split.
Qed.

Lemma history_is_redrawn_witness :
  let s := session [typing (py "hi") (with_key sk nothing)] fresh in
  history s = [user_entry (py "hi"); assistant_entry (py "Here is the news.")]
  /\ exists side rest,
       forallb of_sidebar side = true
       /\ events_of (script nothing s)
          = side ++ main_banner ++ map bubble (history s) ++ rest.
Proof.
  split; [reflexivity|].
  apply (history_is_redrawn nothing
           (session [typing (py "hi") (with_key sk nothing)] fresh));
    reflexivity.
Defined.


(** X10.  A non-empty [OPENAI_API_KEY] in the environment is the key of
    the run and the text input is never consulted: whatever is typed
    there, the run is the same. *)
Theorem environment_key_wins (w : World) (s : SessionState) (env typed : text) :
  OPENAI_API_KEY w = Some env -> env <> [] ->
  supplied_key w = env
  /\ supplied_key (with_key typed w) = env
  /\ script (with_key typed w) s = script w s.
Proof.
  intros He Hne.
  assert (T : truthy (os_getenv w []) = true).
  { unfold os_getenv. rewrite He. destruct env; [contradiction | reflexivity]. }
  assert (K : supplied_key w = env).
  { unfold supplied_key. rewrite T. unfold os_getenv. now rewrite He. }
  split; [exact K|]. split.
  { unfold supplied_key.
    change (os_getenv (with_key typed w) []) with (os_getenv w []).
    rewrite T. unfold os_getenv. now rewrite He. }
  assert (R : read_api_key (with_key typed w) = read_api_key w).
  { unfold read_api_key.
    change (os_getenv (with_key typed w) []) with (os_getenv w []).
    now rewrite T. }
  assert (S : sidebar (with_key typed w) = sidebar w).
  { unfold sidebar. rewrite R. reflexivity. }
  unfold script. rewrite S. reflexivity.
Qed.

Lemma environment_key_wins_witness :
  let w := typing (py "hi") (with_env_key sk nothing) in
  supplied_key w = sk
  /\ supplied_key (with_key (py "another key") w) = sk
  /\ script (with_key (py "another key") w) fresh = script w fresh.
Proof.
  apply (environment_key_wins (typing (py "hi") (with_env_key sk nothing))
           fresh sk (py "another key")).
  - reflexivity.
  - discriminate.
Defined.

Lemma submitted_reaches w s p :
  submitted w s = Some p ->
  invocations (events_of (script w s))
  = match configured w s with Some a => [Run a p] | None => [] end.
Proof.
  intros H. rewrite script_invocations, H. now rewrite script_exact_handle.
Qed.

(** X11.  A run whose non-empty key differs from the key in the held
    handle, and whose constructor call returns, builds the new agent
    exactly once and holds it from then on; a text submitted in that same
    run already goes to the new agent, not to the old one. *)
Theorem key_change_rebuilds_agent (w : World) (s : SessionState) (old : Agent) :
  handle s = Some old ->
  supplied_key w <> [] ->
  api_key (model old) <> supplied_key w ->
  Agent_init w (agent_for w) = None ->
  let r := script w s in
  handle (state_of r) = Some (agent_for w)
  /\ api_key (model (agent_for w)) = supplied_key w
  /\ constructions (events_of r) = [Construct (agent_for w)]
  /\ (forall p, submitted w s = Some p ->
        invocations (events_of r) = [Run (agent_for w) p]).
Proof.
  intros Hold Hk Hne Hinit. cbv zeta.
  assert (A : attempts w s = true).
  { apply attempts_iff. split; [exact Hk|]. right. now exists old. }
  assert (C : configured w s = Some (agent_for w)).
  { unfold configured. now rewrite A, Hinit. }
  rewrite script_exact_handle, script_constructions, A, C.
  repeat split. intros p Hp. now rewrite (submitted_reaches w s p Hp), C.
Qed.

Lemma key_change_rebuilds_agent_witness :
  let s := session [with_key (py "old key") nothing] fresh in
  let w := typing (py "hi") (with_key sk nothing) in
  let r := script w s in
  submitted w s = Some (py "hi")
  /\ (handle (state_of r) = Some (agent_for w)
      /\ api_key (model (agent_for w)) = supplied_key w
      /\ constructions (events_of r) = [Construct (agent_for w)]
      /\ (forall p, submitted w s = Some p ->
            invocations (events_of r) = [Run (agent_for w) p])).
Proof.
  split; [reflexivity|].
  apply (key_change_rebuilds_agent (typing (py "hi") (with_key sk nothing))
           (session [with_key (py "old key") nothing] fresh)
           (Agent_call (py "old key") (py "You are a helpful AI assistant."))).
  - reflexivity.
  - discriminate.
  - discriminate.
  - reflexivity.
Defined.

(** X12.  When the key has changed and the constructor raises, the
    session goes on with the agent built for the old key: the handle is
    kept, a text submitted in that run is sent to it, and the next run
    with the new key calls the constructor again. *)
Theorem failed_rebuild_keeps_old_agent (w w2 : World) (s : SessionState)
    (old : Agent) (e : text) :
  handle s = Some old ->
  supplied_key w <> [] ->
  api_key (model old) <> supplied_key w ->
  Agent_init w (agent_for w) = Some e ->
  supplied_key w2 = supplied_key w ->
  let r := script w s in
  handle (state_of r) = Some old
  /\ In (init_error e) (events_of r)
  /\ (forall p, submitted w s = Some p ->
        invocations (events_of r) = [Run old p])
  /\ constructions (events_of (script w2 (state_of r)))
     = [Construct (agent_for w2)].
Proof.
  intros Hold Hk Hne Hinit K2. cbv zeta.
  assert (A : attempts w s = true).
  { apply attempts_iff. split; [exact Hk|]. right. now exists old. }
  assert (C : configured w s = Some old).
  { unfold configured. now rewrite A, Hinit. }
  assert (H1 : handle (state_of (script w s)) = Some old).
  { now rewrite script_exact_handle. }
  split; [exact H1|]. split; [|split].
  - destruct (script_events_prelude w s) as (more & ->).
    apply in_or_app. left.
    destruct (prelude_spec w s)
      as (o & ms1 & held1 & ex1 & l1 & E & _ & _ & _ & Herr & _).
    rewrite E. now apply Herr.
  - intros p Hp. now rewrite (submitted_reaches w s p Hp), C.
  - rewrite script_constructions.
    assert (A2 : attempts w2 (state_of (script w s)) = true).
    { apply attempts_iff. rewrite K2. split; [exact Hk|]. right.
      now exists old. }
    now rewrite A2.
Qed.

Lemma failed_rebuild_keeps_old_agent_witness :
  let s := session [with_key (py "old key") nothing] fresh in
  let old := Agent_call (py "old key") (py "You are a helpful AI assistant.") in
  let w := construction_raising (py "bad key")
             (typing (py "hi") (with_key sk nothing)) in
  let r := script w s in
  submitted w s = Some (py "hi")
  /\ (handle (state_of r) = Some old
      /\ In (init_error (py "bad key")) (events_of r)
      /\ (forall p, submitted w s = Some p ->
            invocations (events_of r) = [Run old p])
      /\ constructions (events_of (script (with_key sk nothing) (state_of r)))
         = [Construct (agent_for (with_key sk nothing))]).
Proof.
  split; [reflexivity|].
  apply (failed_rebuild_keeps_old_agent
           (construction_raising (py "bad key")
              (typing (py "hi") (with_key sk nothing)))
           (with_key sk nothing)
           (session [with_key (py "old key") nothing] fresh)
           (Agent_call (py "old key") (py "You are a helpful AI assistant."))
           (py "bad key")).
  - reflexivity.
  - discriminate.
  - discriminate.
  - reflexivity.
  - reflexivity.
Defined.

(** The history of a run, from the closed form. *)
Lemma script_history w s :
  history (state_of (script w s))
  = match pressed_example w with
    | Some _ => history s
    | None => history s ++ pending s ++ exchange w (configured w s)
    end.
Proof.
  destruct (script_exact w s) as (side & rest & _ & E & _ & _).
  rewrite E. now destruct (pressed_example w).
Qed.

Lemma replies_follow_user_app ms : forall b tail,
  replies_follow_user b (ms ++ tail)
  = replies_follow_user b ms
    && replies_follow_user
         (fold_left (fun _ m => negb (is_assistant m)) ms b) tail.
Proof.
  induction ms as [|m ms IH]; intros b tail; [reflexivity|].
  cbn [app replies_follow_user fold_left]. unfold is_assistant at 2.
  destruct (role m); cbn [negb].
  - apply IH.
  - rewrite IH. now rewrite andb_assoc.
Qed.

Lemma exchange_follows w held b :
  replies_follow_user b (exchange w held) = true.
Proof.
  unfold exchange. destruct (chat_input w) as [p|]; [|reflexivity].
  destruct (truthy p); [|reflexivity].
  destruct held as [a|]; [|reflexivity].
  destruct (Agent_run w a p); reflexivity.
Qed.

Lemma pending_follows s tail b :
  replies_follow_user true tail = true ->
  replies_follow_user b tail = true ->
  replies_follow_user b (pending s ++ tail) = true.
Proof. unfold pending. destruct (example_prompt s); intros; assumption. Qed.

Lemma script_replies_follow w s :
  replies_follow_user false (history s) = true ->
  replies_follow_user false (history (state_of (script w s))) = true.
Proof.
  intros H. rewrite script_history. destruct (pressed_example w); [exact H|].
  rewrite replies_follow_user_app, H. cbn [andb].
  apply pending_follows; apply exchange_follows.
Qed.

(** X13.  In every session, however its runs went, each assistant entry
    of the history comes directly after a user entry: an answer or an
    error is stored only together with the prompt it belongs to, and the
    history never starts with an assistant entry. *)
Theorem replies_follow_user_entries (ws : list World) :
  replies_follow_user false (history (session ws fresh)) = true.
Proof.
  assert (G : forall s, replies_follow_user false (history s) = true ->
                        replies_follow_user false (history (session ws s)) = true).
  { induction ws as [|w ws IH]; intros s H; [exact H|].
    cbn [session]. apply IH. now apply script_replies_follow. }
  now apply G.
Qed.

Lemma assistants_exchange w held :
  List.length (filter is_assistant (exchange w held))
  = match chat_input w, held with
    | Some p, Some _ => if truthy p then 1 else 0
    | _, _ => 0
    end.
Proof.
  unfold exchange. destruct (chat_input w) as [p|]; [|reflexivity].
  destruct (truthy p); [|now destruct held].
  destruct held as [a|]; [|reflexivity].
  destruct (Agent_run w a p); reflexivity.
Qed.

Lemma script_assistants w s :
  List.length (filter is_assistant (history (state_of (script w s))))
  = List.length (filter is_assistant (history s))
    + List.length (invocations (events_of (script w s))).
Proof.
  rewrite script_history, script_invocations, script_exact_handle.
  unfold submitted.
  destruct (prelude_exact w s) as (l & _ & Ep). rewrite Ep.
  destruct (pressed_example w); cbn [outcome_of fst].
  - cbn. lia.
  - rewrite !filter_app, !length_app, assistants_exchange.
    assert (P : List.length (filter is_assistant (pending s)) = 0).
    { unfold pending. now destruct (example_prompt s). }
    rewrite P.
    destruct (chat_input w) as [p|]; [destruct (truthy p)|];
      destruct (configured w s); cbn; lia.
Qed.

(** X14.  Over any session the assistant entries of the history are as
    many as the calls of [agent.run]: each call, answered or failed,
    leaves exactly one entry, and nothing else is ever stored under the
    assistant role; the missing-key warning in particular is only drawn. *)
Theorem one_assistant_entry_per_agent_call (ws : list World) :
  List.length (filter is_assistant (history (session ws fresh)))
  = List.length (invocations (session_events ws fresh)).
Proof.
  assert (G : forall s,
    List.length (filter is_assistant (history (session ws s)))
    = List.length (filter is_assistant (history s))
      + List.length (invocations (session_events ws s))).
  { induction ws as [|w ws IH]; intros s; cbn [session session_events].
    - cbn. lia.
    - rewrite IH, script_assistants, invocations_app, length_app. lia. }
  rewrite G. reflexivity.
Qed.

(** X15.  The script never clears the agent slot: once a session holds a
    handle it holds one after every later run, also after runs without a
    key and after runs whose constructor call raised. *)
Theorem handle_is_never_cleared (ws : list World) (s : SessionState) (a : Agent) :
  handle s = Some a ->
  exists b, handle (session ws s) = Some b.
Proof.
  revert s a. induction ws as [|w ws IH]; intros s a H; cbn [session].
  - now exists a.
  - assert (K : exists b, handle (state_of (script w s)) = Some b).
    { rewrite script_handle. destruct (attempts w s); [|now exists a].
      destruct (Agent_init w (agent_for w)); [now exists a | now eexists]. }
    destruct K as (b & Hb). now apply (IH _ b).
Qed.

Lemma handle_is_never_cleared_witness :
  exists b,
    handle (session [nothing; construction_raising (py "bad key")
                                (with_key (py "other") nothing)]
              (session [with_key sk nothing] fresh)) = Some b.
Proof.
  apply (handle_is_never_cleared
           [nothing; construction_raising (py "bad key")
                       (with_key (py "other") nothing)]
           (session [with_key sk nothing] fresh) the_agent).
  reflexivity.
Defined.

(** X16.  A run whose example buttons Streamlit accepts (distinct widget
    keys, none of them the slot name) stops at [st.rerun()] exactly when
    an example button is pressed and runs to its end otherwise: no
    exception from a read of the session, from the constructor or from
    [agent.run] leaves it, in a new session either.  After such a run the
    [messages] and [agent] slots exist, and the run has called the
    constructor at most once and [agent.run] at most once. *)
Theorem run_ends_or_reruns (w : World) (s : SessionState) :
  buttons_accepted w = true ->
  let r := script w s in
  outcome_of r
  = match pressed_example w with Some _ => Rerun | None => Done tt end
  /\ messages (state_of r) = Some (history (state_of r))
  /\ agent (state_of r) = Some (handle (state_of r))
  /\ List.length (constructions (events_of r)) <= 1
  /\ List.length (invocations (events_of r)) <= 1.
Proof.
  intros _. cbv zeta. rewrite script_constructions, script_invocations.
  destruct (script_exact w s) as (side & rest & _ & E & _ & _).
  rewrite E. split; [now destruct (pressed_example w)|].
  split; [now destruct (pressed_example w)|].
  split; [now destruct (pressed_example w)|].
  split.
  - destruct (attempts w s); cbn; lia.
  - destruct (submitted w s); [|cbn; lia].
    destruct (handle _); cbn; lia.
Qed.

Lemma run_ends_or_reruns_witness :
  let w := run_raising (py "boom") (typing (py "hi") (with_key sk nothing)) in
  let r := script w fresh in
  outcome_of r
  = match pressed_example w with Some _ => Rerun | None => Done tt end
  /\ messages (state_of r) = Some (history (state_of r))
  /\ agent (state_of r) = Some (handle (state_of r))
  /\ List.length (constructions (events_of r)) <= 1
  /\ List.length (invocations (events_of r)) <= 1.
Proof.
  apply (run_ends_or_reruns
           (run_raising (py "boom") (typing (py "hi") (with_key sk nothing)))
           fresh).
  reflexivity.
Defined.

Lemma bind_cong_at A B (m : M A) (f g : A -> M B) s :
  (forall a s1 l1, m s = (Done a, s1, l1) -> f a s1 = g a s1) ->
  bind m f s = bind m g s.
Proof.
  intros H. unfold bind. destruct (m s) as [[[a| e |] s1] l1]; trivial.
  now rewrite (H a s1 l1 eq_refl).
Qed.

Lemma sidebar_without_construction w f s :
  attempts w s = false ->
  sidebar (with_system_prompt f w) (normal s) = sidebar w (normal s).
Proof.
  intros A. unfold sidebar.
  apply bind_cong_at. intros [] s1 l1 [= <- _].
  change (read_api_key (with_system_prompt f w)) with (read_api_key w).
  apply bind_cong_at. intros key s2 l2 E2.
  destruct (read_api_key_spec w (normal s)) as (lk & Ek & _).
  rewrite Ek in E2. injection E2 as <- <- _.
  assert (I : initialize_agent (with_system_prompt f w) (supplied_key w) (normal s)
              = initialize_agent w (supplied_key w) (normal s)).
  { unfold normal. rewrite !initialize_agent_spec. unfold attempts in A.
    destruct (truthy (supplied_key w)); cbn [andb] in A; [|reflexivity].
    now rewrite A. }
  unfold bind. rewrite I. reflexivity.
Qed.

(** X17.  The system prompt file is read only when an agent is
    constructed.  While the session holds a handle built for the key of
    the run, a changed or removed [system_prompt.txt] changes nothing: the
    run is the same and the agent keeps the instructions it was built
    with. *)
Theorem system_prompt_read_on_construction_only
    (w : World) (s : SessionState) (a : Agent) (f : File) :
  handle s = Some a ->
  api_key (model a) = supplied_key w ->
  script (with_system_prompt f w) s = script w s
  /\ handle (state_of (script (with_system_prompt f w) s)) = Some a.
Proof.
  intros Ha Hk.
  assert (A : attempts w s = false).
  { destruct (attempts w s) eqn:A; [|reflexivity].
    apply attempts_iff in A as [_ [Hn | (b & Hb & Hne)]]; congruence. }
  assert (E : script (with_system_prompt f w) s = script w s).
  { unfold script. apply bind_cong_at. intros [] s1 l1 E1.
    rewrite init_session_state_spec in E1. injection E1 as <-.
    unfold bind at 1 4.
    rewrite (sidebar_without_construction w f s A). reflexivity. }
  split; [exact E|]. rewrite E, script_handle, A. exact Ha.
Qed.

Lemma system_prompt_read_on_construction_only_witness :
  let s := session [with_key sk nothing] fresh in
  let w := typing (py "hi") (with_key sk nothing) in
  let f := Some (py "You are a pirate.") in
  instructions the_agent = py "You are a helpful AI assistant."
  /\ (script (with_system_prompt f w) s = script w s
      /\ handle (state_of (script (with_system_prompt f w) s)) = Some the_agent).
Proof.
  split; [reflexivity|].
  apply (system_prompt_read_on_construction_only
           (typing (py "hi") (with_key sk nothing))
           (session [with_key sk nothing] fresh) the_agent
           (Some (py "You are a pirate."))); reflexivity.
Defined.

(** * Sessions as the page produces them *)

Lemma pending_means_rerun w s :
  example_prompt (state_of (script w s)) <> None ->
  outcome_of (script w s) = Rerun.
Proof.
  destruct (script_exact w s) as (side & rest & _ & E & _ & _). rewrite E.
  destruct (pressed_example w); [reflexivity|].
  cbn [state_of fst snd example_prompt]. intros H. now contradiction H.
Qed.

Lemma idle_reruns_leave_nothing_pending ws : forall s w,
  reruns_are_idle (ws ++ [w]) s = true ->
  (example_prompt s <> None -> chat_input (hd w ws) = None) ->
  example_prompt (session ws s) <> None -> chat_input w = None.
Proof.
  induction ws as [|w1 ws IH]; intros s w Hidle Hs; [exact Hs|].
  cbn [app reruns_are_idle] in Hidle.
  apply andb_true_iff in Hidle as [H1 Hrest].
  cbn [session]. apply IH; [exact Hrest|].
  intros Hp. apply pending_means_rerun in Hp. rewrite Hp in H1.
  destruct ws as [|w2 ws]; cbn [app hd] in *;
    [destruct (chat_input w) | destruct (chat_input w2)];
    congruence.
Qed.

(** C3.  Take any session of the page from its start: runs whose example
    buttons Streamlit accepts, where a run started by [st.rerun()] comes
    without a submission.  Whenever [agent.run] is called in a run and
    raises, the exception does not leave the run, which ends normally with
    the handle kept and the agent called once; exactly one assistant entry
    is appended, its content starts with the error prefix, and it comes
    right after the user entry of the submitted text: the run adds exactly
    these two entries to the history. *)
Theorem agent_failure_adds_two_entries
    (ws : list World) (w : World) (a : Agent) (p e : text) :
  reruns_are_idle (ws ++ [w]) fresh = true ->
  forallb buttons_accepted (ws ++ [w]) = true ->
  In (Run a p) (events_of (script w (session ws fresh))) ->
  Agent_run w a p = inr e ->
  let s := session ws fresh in
  let r := script w s in
  outcome_of r = Done tt
  /\ history (state_of r)
     = history s ++ [user_entry p; assistant_entry (error_prefix ++ e)]
  /\ startswith (error_prefix ++ e) error_prefix = true
  /\ List.length (history (state_of r)) = List.length (history s) + 2
  /\ invocations (events_of r) = [Run a p]
  /\ handle (state_of r) = Some a.
Proof.
  intros Hidle _ Hin Hrun. cbv zeta.
  assert (Hsub : chat_input w <> None).
  { pose proof (In_invocations _ _ Hin eq_refl) as Hi.
    rewrite script_invocations in Hi. unfold submitted in Hi.
    destruct (chat_input w); [discriminate|].
    destruct (outcome_of (prelude w (session ws fresh))); destruct Hi. }
  assert (Hnone : example_prompt (session ws fresh) = None).
  { destruct (example_prompt (session ws fresh)) as [q|] eqn:Ex; [|reflexivity].
    exfalso. apply Hsub.
    apply (idle_reruns_leave_nothing_pending ws fresh w Hidle).
    - intros H. now contradiction H.
    - rewrite Ex. discriminate. }
  destruct (script_on_agent_failure w (session ws fresh) a p e Hin Hrun)
    as (H1 & H2 & H3 & H4 & H5 & H6).
  unfold pending in H2. rewrite Hnone in H2. cbn [app] in H2.
  repeat split; trivial. now apply H6.
Qed.

Lemma agent_failure_adds_two_entries_witness :
  let ws := [pressing (example_key times_square) (with_key sk nothing);
             with_key sk nothing;
             typing (py "first") (with_key sk nothing)] in
  let w := run_raising (py "quota exceeded")
             (typing (py "hi") (with_key sk nothing)) in
  let s := session ws fresh in
  let r := script w s in
  history s
  = [user_entry times_square; user_entry (py "first");
     assistant_entry (py "Here is the news.")]
  /\ (outcome_of r = Done tt
      /\ history (state_of r)
         = history s ++ [user_entry (py "hi");
                         assistant_entry (error_prefix ++ py "quota exceeded")]
      /\ startswith (error_prefix ++ py "quota exceeded") error_prefix = true
      /\ List.length (history (state_of r)) = List.length (history s) + 2
      /\ invocations (events_of r) = [Run the_agent (py "hi")]
      /\ handle (state_of r) = Some the_agent).
Proof.
  split; [reflexivity|].
  apply (agent_failure_adds_two_entries
           [pressing (example_key times_square) (with_key sk nothing);
            with_key sk nothing;
            typing (py "first") (with_key sk nothing)]
           (run_raising (py "quota exceeded")
              (typing (py "hi") (with_key sk nothing)))
           the_agent (py "hi") (py "quota exceeded")).
  - reflexivity.
  - reflexivity.
  - vm_compute. tauto.
  - reflexivity.
Defined.
